(** * IcePAPTriggerController: a shallow embedding and its properties

    Source: [sardana_icepap/ctrl/IcePAPTriggerController.py].

    The controller is a Python class whose methods mutate instance fields
    and talk to two external services: the Tango registry (through
    [taurus.Device]) and the IcePAP motor controller (through the [icepap]
    library).  The embedding threads an explicit state made of

    - the instance fields ([Ctrl]),
    - the state of the outside world, abstract and owned by a [Device],
    - the chronological log of the calls issued to the outside world,

    through a state-and-exception monad.  A Python exception leaves the
    mutations made so far in place, so the monad returns the state on
    both outcomes.  Calls to the logger are left out; [SetAxisPar] and
    [GetAxisPar], which no statement below concerns, are not embedded.

    Numbers.  Python's floats are binary64 numbers and are modelled by
    primitive floats, whose operations round to nearest, ties to even, as
    the hardware does: the [Timeout] property, the calibration constants of
    the motor, the positions of a request and the entries of a trigger
    table are floats, and the arithmetic of [__init__], [SynchOne] and
    [numpy.linspace] is written with the float operations, in the order
    the code applies them.  Python's integers are unbounded and are
    modelled by [Z].  A string is a sequence of code points below 256. *)

From Stdlib Require Import ZArith QArith Qround Qfield Lia Lqa.
From Stdlib Require Import String Ascii Bool List DecimalString.
From Stdlib Require Import PrimFloat FloatOps SpecFloat FloatAxioms.
Import ListNotations.

Local Open Scope string_scope.
Local Open Scope list_scope.
Local Open Scope Z_scope.

(** ** Python exceptions and results *)

Inductive exn : Type :=
| ValueError (msg : string)
| RuntimeError (msg : string)
| KeyError (key : string)
| IndexError (msg : string)
| ZeroDivisionError (msg : string)
| OverflowError (msg : string)
| HwError (msg : string).  (* anything raised by taurus or icepap *)

Inductive result (A : Type) : Type :=
| Ok (a : A)
| Raise (e : exn).

Arguments Ok {A} a.
Arguments Raise {A} e.

(** ** Module constants *)

Definition LOW : string := "low".
Definition HIGH : string := "high".
Definition ECAM : string := "ecam".

Definition MAX_ECAM_VALUES : Z := 20477.

(** The messages of the exceptions the controller raises itself. *)

Definition msg_multiple_time : string :=
  "The IcePAP Trigger Controller is not allowed to generate multiple trigger synchronized by time".

Definition msg_cable : string :=
  "The motor used in the scan is not the same than the motor configure with the trigger cable".

Definition msg_capacity : string :=
  "The Trigger by position not accept more than 20477 positions (points)".

Definition msg_upload : string := "Can not send trigger table.".

(** ** Strings: [in], [split] and [strip] *)

Fixpoint is_prefix (p s : string) : bool :=
  match p, s with
  | EmptyString, _ => true
  | String a p', String b s' => Ascii.eqb a b && is_prefix p' s'
  | String _ _, EmptyString => false
  end.

(** [contains sub s] is Python's [sub in s]. *)
Fixpoint contains (sub s : string) : bool :=
  is_prefix sub s ||
  match s with
  | EmptyString => false
  | String _ s' => contains sub s'
  end.

(** [split_on sep s] is [s.split(sep)] for a one-character separator. *)
Fixpoint split_on (sep : ascii) (s : string) : list string :=
  match s with
  | EmptyString => [EmptyString]
  | String c r =>
      if Ascii.eqb c sep then EmptyString :: split_on sep r
      else match split_on sep r with
           | [] => [String c EmptyString]
           | t :: ts => String c t :: ts
           end
  end.

(** [str.isspace] on the code points below 256: the blanks of ASCII (tab,
    line feed, vertical tab, form feed, carriage return, space), the four
    separators 28 to 31, next line (133) and the no-break space (160). *)
Definition is_space (c : ascii) : bool :=
  let n := nat_of_ascii c in
  ((9 <=? n) && (n <=? 13))%nat || ((28 <=? n) && (n <=? 32))%nat ||
  (n =? 133)%nat || (n =? 160)%nat.

Fixpoint lstrip (s : list ascii) : list ascii :=
  match s with
  | c :: r => if is_space c then lstrip r else s
  | [] => []
  end.

(** [strip s] is [str.strip(s)]. *)
Definition strip (s : string) : string :=
  string_of_list_ascii
    (rev (lstrip (rev (lstrip (list_ascii_of_string s))))).

(** ** Floats *)

Module PyFloat.

(** The rational a finite binary64 number stands for. *)
Definition SF2Q (s : bool) (m : positive) (e : Z) : Q :=
  (inject_Z (if s then Z.neg m else Z.pos m) * Qpower 2 e)%Q.

Definition value (x : float) : option Q :=
  match Prim2SF x with
  | S754_zero _ => Some 0%Q
  | S754_finite s m e => Some (SF2Q s m e)
  | S754_infinity _ | S754_nan => None
  end.

(** The binary64 number nearest to an integer. *)
Definition of_Z (z : Z) : float :=
  SF2Prim (binary_normalize prec emax z 0 false).

(** The float of a Python integer, as the mixed operation [float * int]
    converts it: the nearest binary64 number, and [OverflowError] when the
    integer is beyond the range of binary64. *)
Definition of_int (z : Z) : result float :=
  match Prim2SF (of_Z z) with
  | S754_infinity _ => Raise (OverflowError "int too large to convert to float")
  | _ => Ok (of_Z z)
  end.

(** A float that is neither an infinity nor a NaN. *)
Definition finite (x : float) : bool :=
  match Prim2SF x with
  | S754_zero _ | S754_finite _ _ _ => true
  | S754_infinity _ | S754_nan => false
  end.

(** [a // x] for an integer [a] that binary64 holds exactly and a float
    [x]: the floor of the mathematical quotient, delivered as a float.
    The interpreter obtains it from the exact remainder [fmod(a, x)], as
    the quotient of [a - fmod(a, x)] by [x] snapped to the nearest integer;
    that is the floor of the quotient as long as the quotient is small
    enough for the snapping to absorb the two roundings, as the quotients
    between -30 and 30 met below are. *)
Definition floordiv (a : Z) (x : float) : result float :=
  match Prim2SF x with
  | S754_zero _ => Raise (ZeroDivisionError "float floor division by zero")
  | S754_nan => Ok nan
  | S754_infinity s =>
      Ok (if a =? 0 then zero
          else if Bool.eqb s (a <? 0) then zero else of_Z (-1))
  | S754_finite s m e => Ok (of_Z (Qfloor (inject_Z a / SF2Q s m e)))
  end.

(** [int(x)]: truncation towards zero. *)
Definition int (x : float) : result Z :=
  match Prim2SF x with
  | S754_zero _ => Ok 0
  | S754_nan => Raise (ValueError "cannot convert float NaN to integer")
  | S754_infinity _ =>
      Raise (OverflowError "cannot convert float infinity to integer")
  | S754_finite s m e =>
      let q := SF2Q s m e in Ok (Z.quot (Qnum q) (Z.pos (Qden q)))
  end.

(** 0.1 as Python reads it: the nearest binary64 number. *)
Definition tenth : float := 0x1.999999999999ap-4%float.

(** [a / b]. *)
Definition truediv (a b : float) : result float :=
  if PrimFloat.eqb b zero then
    Raise (ZeroDivisionError "float division by zero")
  else Ok (a / b)%float.

End PyFloat.

(** Lines 115-120 of [__init__]:
<<
    self._retries_nr = 3 // (self.Timeout + 0.1)
    if self._retries_nr == 0:
        self._retries_nr = 1
    self._retries_nr = int(self._retries_nr)
>> *)
Definition retries_nr (Timeout : float) : result Z :=
  match PyFloat.floordiv 3 (Timeout + PyFloat.tenth)%float with
  | Raise e => Raise e
  | Ok q =>
      let q := if PrimFloat.eqb q zero then one else q in
      PyFloat.int q
  end.

(** ** Data *)

(** [sardana.State]. *)
Inductive State : Type :=
| On | Off | Close | Open | Insert | Extract | Moving | Standby
| Fault | Init | Running | Alarm | Disable | Unknown.

(** What the [state] attribute of an IcePAP axis answers to the three
    queries the controller makes. *)
Record HwState : Type := {
  is_poweron : bool;
  is_moving : bool;
  is_settling : bool
}.

(** The controller properties ([ctrl_properties]). *)
Record Props : Type := {
  IcepapController : string;
  DefaultMotor : string;
  UseMasterOut : bool;
  AxisInfos : string;
  Timeout : float
}.

(** The instance fields.  [None] is Python's [None]. *)
Record Ctrl : Type := {
  props : Props;
  _time_mode : bool;
  _start_trigger_only : bool;
  _use_master_out : bool;
  _axis_info_list : list string;
  _retries_nr : Z;
  _last_motor_name : option string;
  _motor_axis : option Z;
  _motor_spu : float;
  _motor_offset : float;
  _motor_sign : float
}.

Definition set_time_mode (b : bool) (c : Ctrl) : Ctrl :=
  {| props := props c; _time_mode := b;
     _start_trigger_only := _start_trigger_only c;
     _use_master_out := _use_master_out c;
     _axis_info_list := _axis_info_list c; _retries_nr := _retries_nr c;
     _last_motor_name := _last_motor_name c; _motor_axis := _motor_axis c;
     _motor_spu := _motor_spu c; _motor_offset := _motor_offset c;
     _motor_sign := _motor_sign c |}.

Definition set_start_trigger_only (b : bool) (c : Ctrl) : Ctrl :=
  {| props := props c; _time_mode := _time_mode c;
     _start_trigger_only := b;
     _use_master_out := _use_master_out c;
     _axis_info_list := _axis_info_list c; _retries_nr := _retries_nr c;
     _last_motor_name := _last_motor_name c; _motor_axis := _motor_axis c;
     _motor_spu := _motor_spu c; _motor_offset := _motor_offset c;
     _motor_sign := _motor_sign c |}.

Definition set_last_motor_name (n : option string) (c : Ctrl) : Ctrl :=
  {| props := props c; _time_mode := _time_mode c;
     _start_trigger_only := _start_trigger_only c;
     _use_master_out := _use_master_out c;
     _axis_info_list := _axis_info_list c; _retries_nr := _retries_nr c;
     _last_motor_name := n; _motor_axis := _motor_axis c;
     _motor_spu := _motor_spu c; _motor_offset := _motor_offset c;
     _motor_sign := _motor_sign c |}.

Definition set_motor_axis (a : option Z) (c : Ctrl) : Ctrl :=
  {| props := props c; _time_mode := _time_mode c;
     _start_trigger_only := _start_trigger_only c;
     _use_master_out := _use_master_out c;
     _axis_info_list := _axis_info_list c; _retries_nr := _retries_nr c;
     _last_motor_name := _last_motor_name c; _motor_axis := a;
     _motor_spu := _motor_spu c; _motor_offset := _motor_offset c;
     _motor_sign := _motor_sign c |}.

Definition set_calibration (v : float * float * float) (c : Ctrl) : Ctrl :=
  let '(spu, offset, sign) := v in
  {| props := props c; _time_mode := _time_mode c;
     _start_trigger_only := _start_trigger_only c;
     _use_master_out := _use_master_out c;
     _axis_info_list := _axis_info_list c; _retries_nr := _retries_nr c;
     _last_motor_name := _last_motor_name c; _motor_axis := _motor_axis c;
     _motor_spu := spu; _motor_offset := offset; _motor_sign := sign |}.

(** One synchronization group of the configuration handed to [SynchOne].
    [Repeats] is [group[SynchParam.Repeats]]; [Initial] and [Total] are the
    [SynchDomain.Position] entries of [group[SynchParam.Initial]] and
    [group[SynchParam.Total]], [None] when the group has no such key.
    The count of points is an integer, the positions are floats. *)
Record SynchGroup : Type := {
  Repeats : Z;
  Initial : option float;
  Total : option float
}.

(** ** The outside world *)

(** The calls the controller issues, as they are logged.  An axis is
    [self._motor_axis], which is [None] until a motor is configured. *)
Inductive Event : Type :=
| Connect (name : string)
| TaurusAxis (motor : option string)
| TaurusReadAttributes (motor : option string)
| IpapGetItem (axis : option Z)
| ReadState (axis : option Z)
| SetAttr (axis : option Z) (name : string) (value : string * string)
| ReadSyncaux (axis : option Z)
| Print (text : string)
| GetPmux
| ClearPmux (dest : string)
| AddPmux (axis : option Z) (dest : string) (pos aux hard : bool)
| SetEcamTable (axis : option Z) (table : list float)
| Sleep (seconds : Q).

(** The capability interface the controller consumes.  Every operation may
    raise, and may change the state [W] of the world in any way.

    - [ipap_connect name timeout]: [taurus.Device(name)], its [host] and
      [port] properties, and [icepap.IcePAPController(...)];
    - [taurus_axis name]: [int(taurus.Device(name).get_property('axis')['axis'][0])];
    - [taurus_read_attributes name]: the values of [step_per_unit],
      [offset] and [sign] read in one [read_attributes] call;
    - [ipap_getitem axis]: [self._ipap[axis]];
    - [axis_state axis]: [self._ipap[axis].state];
    - [axis_setattr axis name value]: [setattr(motor, name, value)];
    - [axis_syncaux axis]: the text of [motor.syncaux];
    - [ipap_get_pmux], [ipap_clear_pmux], [ipap_add_pmux]: the multiplexer;
    - [axis_set_ecam_table axis table]:
      [self._ipap[axis].set_ecam_table(table)]. *)
Class Device (W : Type) : Type := {
  ipap_connect : string -> float -> W -> result unit * W;
  taurus_axis : option string -> W -> result Z * W;
  taurus_read_attributes :
    option string -> W -> result (float * float * float) * W;
  ipap_getitem : option Z -> W -> result unit * W;
  axis_state : option Z -> W -> result HwState * W;
  axis_setattr : option Z -> string -> string * string -> W -> result unit * W;
  axis_syncaux : option Z -> W -> result string * W;
  ipap_get_pmux : W -> result (list string) * W;
  ipap_clear_pmux : string -> W -> result unit * W;
  ipap_add_pmux : option Z -> string -> bool -> bool -> bool -> W -> result unit * W;
  axis_set_ecam_table : option Z -> list float -> W -> result unit * W
}.

(** ** numpy.linspace *)

(** [numpy.linspace(start, stop, num)] on two floats with the default
    [endpoint=True], after numpy's implementation:
<<
    div = num - 1
    delta = stop - start
    y = arange(0, num)
    if div > 0:
        step = delta / div
        if step == 0:
            y /= div
            y = y * delta
        else:
            y = y * step
    else:
        y = y * delta
    y += start
    if num > 1:
        y[-1] = stop
>>
    every operation being the binary64 one. *)
Definition arange (n : nat) : list float :=
  map (fun i => PyFloat.of_Z (Z.of_nat i)) (seq 0 n).

Definition set_last (l : list float) (v : float) : list float :=
  match l with
  | [] => []
  | _ :: _ => removelast l ++ [v]
  end.

Definition samples_message (num : Z) : string :=
  "Number of samples, " ++ NilZero.string_of_int (Z.to_int num) ++
  ", must be non-negative.".

Definition linspace (start stop : float) (num : Z) : result (list float) :=
  if num <? 0 then Raise (ValueError (samples_message num))
  else
    let div := num - 1 in
    let delta := (stop - start)%float in
    let y := arange (Z.to_nat num) in
    let y :=
      if 0 <? div then
        let step := (delta / PyFloat.of_Z div)%float in
        if PrimFloat.eqb step zero then
          map (fun v => (v / PyFloat.of_Z div * delta)%float) y
        else map (fun v => (v * step)%float) y
      else map (fun v => (v * delta)%float) y in
    let y := map (fun v => (v + start)%float) y in
    Ok (if 1 <? num then set_last y stop else y).

(** [name != self.DefaultMotor] compares a possibly unset name with a
    string. *)
Definition name_eqb (a : option string) (b : string) : bool :=
  match a with
  | None => false
  | Some a => String.eqb a b
  end.

(** ** The controller *)

Section Controller.

Context {W : Type} {dev : Device W}.

Record St : Type := {
  ctrl : Ctrl;
  world : W;
  log : list Event
}.

(** *** The monad *)

Definition M (A : Type) : Type := St -> result A * St.

Definition ret {A} (a : A) : M A := fun s => (Ok a, s).

Definition bind {A B} (m : M A) (k : A -> M B) : M B :=
  fun s =>
    match m s with
    | (Ok a, s') => k a s'
    | (Raise e, s') => (Raise e, s')
    end.

Definition raise {A} (e : exn) : M A := fun s => (Raise e, s).

Definition get : M Ctrl := fun s => (Ok (ctrl s), s).

Definition modify (f : Ctrl -> Ctrl) : M unit :=
  fun s => (Ok tt, {| ctrl := f (ctrl s); world := world s; log := log s |}).

(** A call to the outside world: logged, then answered by the device. *)
Definition call {A} (ev : Event) (op : W -> result A * W) : M A :=
  fun s =>
    let (r, w) := op (world s) in
    (r, {| ctrl := ctrl s; world := w; log := log s ++ [ev] |}).

(** An effect that cannot fail (standard output, sleeping). *)
Definition emit (ev : Event) : M unit :=
  fun s => (Ok tt, {| ctrl := ctrl s; world := world s; log := log s ++ [ev] |}).

Definition lift {A} (r : result A) : M A := fun s => (r, s).

End Controller.

Arguments St W : clear implicits.
Arguments M W A : clear implicits.

Declare Scope monad_scope.
Delimit Scope monad_scope with monad.
Notation "x <- m ;; k" := (bind m (fun x => k))
  (at level 61, m at next level, right associativity) : monad_scope.
Notation "m ;; k" := (bind m (fun _ => k))
  (at level 61, right associativity) : monad_scope.

Section Operations.

Context {W : Type} {dev : Device W}.

Local Open Scope monad_scope.

(** [for x in l: body(x)]. *)
Fixpoint for_each {A} (l : list A) (body : A -> M W unit) : M W unit :=
  match l with
  | [] => ret tt
  | x :: l' => body x ;; for_each l' body
  end.

(** The retry loop of [StateOne] and [SynchOne]:
<<
    result = None
    for i in range(n):
        try:
            result = attempt()
            break
        except Exception:
            log
>> *)
Fixpoint retry {A} (n : nat) (attempt : M W A) : M W (option A) :=
  match n with
  | O => ret None
  | S n' =>
      fun s =>
        match attempt s with
        | (Ok a, s') => (Ok (Some a), s')
        | (Raise _, s') => retry n' attempt s'
        end
  end.

(** [__init__].  It raises when the retry count cannot be computed or the
    connection fails. *)
Definition __init__ (p : Props) (w : W) : result (St W) :=
  match retries_nr (Timeout p) with
  | Raise e => Raise e
  | Ok n =>
      match ipap_connect (IcepapController p) (Timeout p) w with
      | (Raise e, _) => Raise e
      | (Ok _, w') =>
          Ok {| ctrl :=
                  {| props := p;
                     _time_mode := false;
                     _start_trigger_only := false;
                     _use_master_out := UseMasterOut p;
                     _axis_info_list := map strip (split_on "," (AxisInfos p));
                     _retries_nr := n;
                     _last_motor_name := None;
                     _motor_axis := None;
                     _motor_spu := 1;
                     _motor_offset := 0;
                     _motor_sign := 1 |};
                world := w';
                log := [Connect (IcepapController p)] |}
      end
  end.

Definition _set_out (out : string) : M W unit :=
  c <- get ;;
  let axis := _motor_axis c in
  call (IpapGetItem axis) (ipap_getitem axis) ;;
  let value := (out, "normal") in
  (if _use_master_out c then
     call (SetAttr axis "syncaux" value) (axis_setattr axis "syncaux" value)
   else
     for_each (_axis_info_list c)
       (fun info_out =>
          call (SetAttr axis info_out value) (axis_setattr axis info_out value))) ;;
  text <- call (ReadSyncaux axis) (axis_syncaux axis) ;;
  emit (Print text).

Definition _configureMotor (motor_name : option string) : M W unit :=
  c <- get ;;
  let motor_name :=
    match motor_name with
    | None => DefaultMotor (props c)
    | Some n => n
    end in
  modify (set_last_motor_name (Some motor_name)) ;;
  c <- get ;;
  axis <- call (TaurusAxis (_last_motor_name c))
               (taurus_axis (_last_motor_name c)) ;;
  modify (set_motor_axis (Some axis)) ;;
  values <- call (TaurusReadAttributes (_last_motor_name c))
                 (taurus_read_attributes (_last_motor_name c)) ;;
  modify (set_calibration values) ;;
  c <- get ;;
  if name_eqb (_last_motor_name c) motor_name then ret tt
  else if _use_master_out c then
    pmux <- call GetPmux ipap_get_pmux ;;
    (if existsb (contains "E0") pmux
     then call (ClearPmux "e0") (ipap_clear_pmux "e0")
     else ret tt) ;;
    call (AddPmux (_motor_axis c) "e0" false true true)
         (ipap_add_pmux (_motor_axis c) "e0" false true true) ;;
    _ <- call GetPmux ipap_get_pmux ;;
    ret tt
  else ret tt.

Definition hw_state_to_State (hw_state : option HwState) : State * string :=
  match hw_state with
  | None => (Alarm, "The motor is power off or not possible to read State")
  | Some h =>
      if negb (is_poweron h) then
        (Alarm, "The motor is power off or not possible to read State")
      else if is_moving h || is_settling h then (Moving, "Moving")
      else (On, "Motor is not generating triggers.")
  end.

Definition StateOne (axis : Z) : M W (State * string) :=
  c <- get ;;
  hw_state <- retry (Z.to_nat (_retries_nr c))
                    (call (ReadState (_motor_axis c))
                          (axis_state (_motor_axis c))) ;;
  ret (hw_state_to_State hw_state).

Definition PreStartOne (axis : Z) : M W bool :=
  c <- get ;;
  (if _time_mode c then _set_out LOW else _set_out ECAM) ;;
  ret true.

Definition StartOne (axis : Z) : M W unit :=
  c <- get ;;
  if negb (_time_mode c) then ret tt
  else
    _set_out HIGH ;;
    emit (Sleep (1 # 100)) ;;
    _set_out LOW.

Definition AbortOne (axis : Z) : M W unit :=
  _set_out LOW.

Definition upload (trigger_table : list float) : M W unit :=
  c <- get ;;
  table_loaded <-
    retry (Z.to_nat (_retries_nr c))
          (call (SetEcamTable (_motor_axis c) trigger_table)
                (axis_set_ecam_table (_motor_axis c) trigger_table)) ;;
  match table_loaded with
  | Some _ => ret tt
  | None => raise (RuntimeError msg_upload)
  end.

Definition check_cable (name : option string) : M W unit :=
  c <- get ;;
  if negb (_use_master_out c) && negb (name_eqb name (DefaultMotor (props c)))
  then raise (RuntimeError msg_cable)
  else ret tt.

(** [SynchOne].  The arithmetic of lines 277-281 is
<<
    start_user -= self._motor_offset
    start = start_user * self._motor_spu/self._motor_sign
    delta = delta_user * self._motor_spu/self._motor_sign
    end = start + delta * nr_points
>>
    where the product [delta * nr_points] converts the count to a float.
    The message of the debug log that follows is built before the logger is
    called, with [delta] formatted by ['%d']: that is a conversion to an
    integer, which raises when [delta] is an infinity or a NaN. *)
Definition SynchOne (axis : Z) (configuration : list SynchGroup) : M W unit :=
  match configuration with
  | [] => raise (IndexError "list index out of range")
  | synch_group :: _ =>
      let nr_points := Repeats synch_group in
      match Initial synch_group with
      | None =>
          (if 1 <? nr_points then raise (ValueError msg_multiple_time)
           else modify (set_time_mode true)) ;;
          c <- get ;;
          check_cable (_last_motor_name c) ;;
          _configureMotor (_last_motor_name c)
      | Some start_user =>
          modify (set_time_mode false) ;;
          c <- get ;;
          let master := _last_motor_name c in
          check_cable master ;;
          _configureMotor master ;;
          delta_user <-
            match Total synch_group with
            | Some d => ret d
            | None => raise (KeyError "SynchParam.Total")
            end ;;
          c <- get ;;
          let start_user := (start_user - _motor_offset c)%float in
          start <- lift (PyFloat.truediv (start_user * _motor_spu c)
                                         (_motor_sign c)) ;;
          delta <- lift (PyFloat.truediv (delta_user * _motor_spu c)
                                         (_motor_sign c)) ;;
          nr_float <- lift (PyFloat.of_int nr_points) ;;
          let end_ := (start + delta * nr_float)%float in
          _ <- lift (PyFloat.int delta) ;;
          trigger_table <-
            (if _start_trigger_only c then ret [start]
             else if MAX_ECAM_VALUES <? nr_points then
               raise (RuntimeError msg_capacity)
             else lift (linspace start (end_ - delta)%float nr_points)) ;;
          upload trigger_table
      end
  end.

Definition setMasterMotor (axis : Z) (value : string) : M W unit :=
  _configureMotor (Some value).

Definition getMasterMotor (axis : Z) : M W (option string) :=
  c <- get ;; ret (_last_motor_name c).

Definition setStartTriggerOnly (axis : Z) (value : bool) : M W unit :=
  modify (set_start_trigger_only value).

Definition getStartTriggerOnly (axis : Z) : M W bool :=
  c <- get ;; ret (_start_trigger_only c).

End Operations.

(** ** Simulated devices *)

(** A test bench on which every call succeeds: any motor name resolves to
    axis 1 with the given calibration, the axis is powered and idle, and the
    multiplexer is empty. *)
Definition bench (spu offset sign : float) : Device unit := {|
  ipap_connect := fun _ _ w => (Ok tt, w);
  taurus_axis := fun _ w => (Ok 1, w);
  taurus_read_attributes := fun _ w => (Ok (spu, offset, sign), w);
  ipap_getitem := fun _ w => (Ok tt, w);
  axis_state := fun _ w =>
    (Ok {| is_poweron := true; is_moving := false; is_settling := false |}, w);
  axis_setattr := fun _ _ _ w => (Ok tt, w);
  axis_syncaux := fun _ w => (Ok "['low', 'normal']", w);
  ipap_get_pmux := fun w => (Ok [], w);
  ipap_clear_pmux := fun _ w => (Ok tt, w);
  ipap_add_pmux := fun _ _ _ _ _ w => (Ok tt, w);
  axis_set_ecam_table := fun _ _ w => (Ok tt, w)
|}.

(** A device that lets the controller connect and then fails every call. *)
Definition unreachable : Device unit := {|
  ipap_connect := fun _ _ w => (Ok tt, w);
  taurus_axis := fun _ w => (Raise (HwError "timeout"), w);
  taurus_read_attributes := fun _ w => (Raise (HwError "timeout"), w);
  ipap_getitem := fun _ w => (Raise (HwError "timeout"), w);
  axis_state := fun _ w => (Raise (HwError "timeout"), w);
  axis_setattr := fun _ _ _ w => (Raise (HwError "timeout"), w);
  axis_syncaux := fun _ w => (Raise (HwError "timeout"), w);
  ipap_get_pmux := fun w => (Raise (HwError "timeout"), w);
  ipap_clear_pmux := fun _ w => (Raise (HwError "timeout"), w);
  ipap_add_pmux := fun _ _ _ _ _ w => (Raise (HwError "timeout"), w);
  axis_set_ecam_table := fun _ _ w => (Raise (HwError "timeout"), w)
|}.

(** A bench whose state reads and table uploads time out as long as the
    counter it keeps is positive; each timeout decrements the counter. *)
Definition flaky : Device nat := {|
  ipap_connect := fun _ _ w => (Ok tt, w);
  taurus_axis := fun _ w => (Ok 1, w);
  taurus_read_attributes := fun _ w => (Ok (1000, 0, 1)%float, w);
  ipap_getitem := fun _ w => (Ok tt, w);
  axis_state := fun _ w =>
    match w with
    | O => (Ok {| is_poweron := true; is_moving := true; is_settling := false |}, O)
    | S w' => (Raise (HwError "timeout"), w')
    end;
  axis_setattr := fun _ _ _ w => (Ok tt, w);
  axis_syncaux := fun _ w => (Ok "['low', 'normal']", w);
  ipap_get_pmux := fun w => (Ok [], w);
  ipap_clear_pmux := fun _ w => (Ok tt, w);
  ipap_add_pmux := fun _ _ _ _ _ w => (Ok tt, w);
  axis_set_ecam_table := fun _ _ w =>
    match w with
    | O => (Ok tt, O)
    | S w' => (Raise (HwError "timeout"), w')
    end
|}.

(** A bench that keeps its output registers.  Its state is the list of
    the register writes it accepted, the latest first; [syncaux] reads back
    the level last written to it.  A write to the register [broken], when
    there is one, is refused and leaves the registers as they are. *)
Definition Registers : Type := list (string * (string * string)).

Definition level (w : Registers) : string :=
  match find (fun r => String.eqb (fst r) "syncaux") w with
  | Some (_, (out, _)) => out
  | None => LOW
  end.

Definition panel (broken : option string) : Device Registers := {|
  ipap_connect := fun _ _ w => (Ok tt, w);
  taurus_axis := fun _ w => (Ok 1, w);
  taurus_read_attributes := fun _ w => (Ok (1000, 0, 1)%float, w);
  ipap_getitem := fun _ w => (Ok tt, w);
  axis_state := fun _ w =>
    (Ok {| is_poweron := true; is_moving := false; is_settling := false |}, w);
  axis_setattr := fun _ name value w =>
    if name_eqb broken name then (Raise (HwError "register"), w)
    else (Ok tt, (name, value) :: w);
  axis_syncaux := fun _ w => (Ok (level w), w);
  ipap_get_pmux := fun w => (Ok [], w);
  ipap_clear_pmux := fun _ w => (Ok tt, w);
  ipap_add_pmux := fun _ _ _ _ _ w => (Ok tt, w);
  axis_set_ecam_table := fun _ _ w => (Ok tt, w)
|}.

Definition half : float := 0x1p-1%float.

(** The properties of a controller wired to the master output, and of one
    wired to the auxiliary output [InfoA] of the motor [m1]. *)
Definition props_master : Props := {|
  IcepapController := "ipap";
  DefaultMotor := "m1";
  UseMasterOut := true;
  AxisInfos := "InfoA";
  Timeout := half
|}.

Definition props_aux : Props := {|
  IcepapController := "ipap";
  DefaultMotor := "m1";
  UseMasterOut := false;
  AxisInfos := "InfoA, InfoB";
  Timeout := half
|}.

(** The same with three auxiliary outputs, and the properties of a
    controller given a negative timeout. *)
Definition props_aux3 : Props := {|
  IcepapController := "ipap";
  DefaultMotor := "m1";
  UseMasterOut := false;
  AxisInfos := "InfoA, InfoB, InfoC";
  Timeout := half
|}.

Definition props_negative : Props := {|
  IcepapController := "ipap";
  DefaultMotor := "m1";
  UseMasterOut := true;
  AxisInfos := "InfoA";
  Timeout := (-1)%float
|}.

(** The instance fields right after [__init__]. *)
Definition fresh (p : Props) (n : Z) : Ctrl := {|
  props := p;
  _time_mode := false;
  _start_trigger_only := false;
  _use_master_out := UseMasterOut p;
  _axis_info_list := map strip (split_on "," (AxisInfos p));
  _retries_nr := n;
  _last_motor_name := None;
  _motor_axis := None;
  _motor_spu := 1;
  _motor_offset := 0;
  _motor_sign := 1
|}.

Definition booted {W} (p : Props) (n : Z) (w : W) : St W :=
  {| ctrl := fresh p n; world := w; log := [Connect (IcepapController p)] |}.

(** ** Observations on the log *)

(** Writes to the output registers, and the dwell between them. *)
Definition is_output (ev : Event) : bool :=
  match ev with
  | SetAttr _ _ _ | Sleep _ => true
  | _ => false
  end.

(** Changes of the multiplexer wiring. *)
Definition is_pmux_write (ev : Event) : bool :=
  match ev with
  | ClearPmux _ | AddPmux _ _ _ _ _ => true
  | _ => false
  end.

(** Uploads of a trigger table. *)
Definition is_upload (ev : Event) : bool :=
  match ev with
  | SetEcamTable _ _ => true
  | _ => false
  end.

(** The output registers of the controller: [syncaux] in master-output
    mode, the auxiliary channels otherwise. *)
Definition channels (c : Ctrl) : list string :=
  if _use_master_out c then ["syncaux"] else _axis_info_list c.

(** The register writes by which [_set_out out] drives the output. *)
Definition drive (c : Ctrl) (out : string) : list Event :=
  if _use_master_out c then
    [SetAttr (_motor_axis c) "syncaux" (out, "normal")]
  else
    map (fun info => SetAttr (_motor_axis c) info (out, "normal"))
        (_axis_info_list c).

(** The state in which only the instance fields differ. *)
Definition with_ctrl {W} (c : Ctrl) (s : St W) : St W :=
  {| ctrl := c; world := world s; log := log s |}.

(** ** Vocabulary of the statements *)

(** The name [_configureMotor] binds: the default motor stands in for an
    absent one. *)
Definition resolved_name (name : option string) (c : Ctrl) : string :=
  match name with
  | None => DefaultMotor (props c)
  | Some n => n
  end.

(** A table whose entries grow strictly, each one greater than the one
    before, in the order of binary64; and one whose entries shrink
    strictly. *)
Definition increasing (t : list float) : Prop :=
  forall i, (S i < length t)%nat ->
    PrimFloat.ltb (nth i t zero) (nth (S i) t zero) = true.


(** The conversion of a request from user units to motor steps, with the
    calibration of the bound motor:
    [start = (initialPosition - offset) * stepsPerUnit / sign] and
    [delta = totalSpan * stepsPerUnit / sign], each operation rounded to
    binary64. *)
Definition steps_start (c : Ctrl) (initial : float) : float :=
  ((initial - _motor_offset c) * _motor_spu c / _motor_sign c)%float.

Definition steps_delta (c : Ctrl) (total : float) : float :=
  (total * _motor_spu c / _motor_sign c)%float.






(** [f] holds of the [n] integers from [z] on. *)
Fixpoint all_from (f : Z -> bool) (n : nat) (z : Z) : bool :=
  match n with
  | O => true
  | S n' => f z && all_from f n' (z + 1)
  end.

(** Every quotient from -30 to 30 is a binary64 number, and [int] gives
    it back; a zero quotient is replaced by one. *)
Definition zero_to_one (q : Z) : Z := if q =? 0 then 1 else q.

Definition quotient_ok (z : Z) : bool :=
  match
    PyFloat.int (if PrimFloat.eqb (PyFloat.of_Z z) zero then one
                 else PyFloat.of_Z z)
  with
  | Ok n => n =? zero_to_one z
  | Raise _ => false
  end.

(** The state [_configureMotor] leaves on a bench, from a freshly
    initialised controller: the default motor bound to axis 1. *)
Definition bound (p : Props) (n : Z) (calibration : float * float * float) :
  St unit :=
  {| ctrl :=
       set_calibration calibration
         (set_motor_axis (Some 1)
            (set_last_motor_name (Some (DefaultMotor p)) (fresh p n)));
     world := tt;
     log := [Connect (IcepapController p);
             TaurusAxis (Some (DefaultMotor p));
             TaurusReadAttributes (Some (DefaultMotor p))] |}.

Definition g_five : SynchGroup :=
  {| Repeats := 5; Initial := Some 0%float; Total := Some 10%float |}.


Definition g_over : SynchGroup :=
  {| Repeats := 20478; Initial := Some 0%float; Total := Some 10%float |}.

Definition two60 : float := 0x1p60%float.

Definition g_wide (initial : float) : SynchGroup :=
  {| Repeats := 3; Initial := Some initial; Total := Some 1%float |}.

Definition g_time (n : Z) : SynchGroup :=
  {| Repeats := n; Initial := None; Total := None |}.

Section Vocabulary.

Context {W : Type} {dev : Device W}.

(** A computation that leaves the instance fields alone, whatever its
    outcome. *)
Definition keeps_ctrl {A} (m : M W A) : Prop :=
  forall s, ctrl (snd (m s)) = ctrl s.

(** A computation that adds no event selected by [f] to the log. *)
Definition quiet {A} (f : Event -> bool) (m : M W A) : Prop :=
  forall s, filter f (log (snd (m s))) = filter f (log s).

(** [polled axis n w r w' k]: reading the state of [axis] under the retry
    policy with a budget of [n] attempts, from the world [w], takes [k]
    attempts and ends in the world [w'] with the reading [r]; [r] is
    [None] when every attempt failed. *)
Inductive polled (axis : option Z) : nat -> W -> option HwState -> W -> nat -> Prop :=
| polled_exhausted w :
    polled axis 0 w None w 0
| polled_success n w h w' :
    axis_state axis w = (Ok h, w') ->
    polled axis (S n) w (Some h) w' 1
| polled_failure n w e w' r w'' k :
    axis_state axis w = (Raise e, w') ->
    polled axis n w' r w'' k ->
    polled axis (S n) w r w'' (S k).

(** The device accepts every access to the output registers. *)
Definition outputs_never_fail : Prop :=
  (forall ax w, fst (ipap_getitem ax w) = Ok tt) /\
  (forall ax name value w, fst (axis_setattr ax name value w) = Ok tt) /\
  (forall ax w, exists text, fst (axis_syncaux ax w) = Ok text).

(** The world after the writes of [value] to the registers [infos] of the
    axis [ax], made one after the other, and the condition that the device
    accepts every one of them. *)
Fixpoint written (ax : option Z) (value : string * string)
    (infos : list string) (w : W) : W :=
  match infos with
  | [] => w
  | info :: rest =>
      written ax value rest (snd (axis_setattr ax info value w))
  end.

Fixpoint writes_succeed (ax : option Z) (value : string * string)
    (infos : list string) (w : W) : Prop :=
  match infos with
  | [] => True
  | info :: rest =>
      fst (axis_setattr ax info value w) = Ok tt /\
      writes_succeed ax value rest (snd (axis_setattr ax info value w))
  end.

(** What driving the output to [out] does to the world when the device
    accepts it: the handle of the axis is obtained, [(out, "normal")] is
    written to each output register in turn, and [syncaux] is read back.
    [set_out_events] are the calls issued on the way, the text read back
    being printed. *)
Definition driven (c : Ctrl) (out : string) (w : W) : W :=
  let ax := _motor_axis c in
  snd (axis_syncaux ax
         (written ax (out, "normal") (channels c) (snd (ipap_getitem ax w)))).

Definition syncaux_text (c : Ctrl) (out : string) (w : W) : string :=
  let ax := _motor_axis c in
  match
    fst (axis_syncaux ax
           (written ax (out, "normal") (channels c) (snd (ipap_getitem ax w))))
  with
  | Ok text => text
  | Raise _ => ""
  end.

Definition set_out_events (c : Ctrl) (out : string) (w : W) : list Event :=
  let ax := _motor_axis c in
  IpapGetItem ax ::
  drive c out ++ [ReadSyncaux ax; Print (syncaux_text c out w)].

End Vocabulary.

(** ** Vocabulary of the further statements *)

(** The fields [__init__] derives from the controller properties. *)
Definition construction_fields (c : Ctrl) : Props * bool * list string * Z :=
  (props c, _use_master_out c, _axis_info_list c, _retries_nr c).

(** The calibration of the bound motor. *)
Definition calibration (c : Ctrl) : float * float * float :=
  (_motor_spu c, _motor_offset c, _motor_sign c).

(** A position-domain group starting at 0. *)
Definition g_position (n : Z) (total : option float) : SynchGroup :=
  {| Repeats := n; Initial := Some 0%float; Total := total |}.

(** How often a character occurs in a string. *)
Fixpoint count_char (a : ascii) (s : string) : nat :=
  match s with
  | EmptyString => 0%nat
  | String c r => ((if Ascii.eqb c a then 1 else 0) + count_char a r)%nat
  end.

(** A list of characters that neither starts nor ends with white space. *)
Definition trimmed (l : list ascii) : Prop :=
  (forall c r, l = c :: r -> is_space c = false) /\
  (forall c r, l = r ++ [c] -> is_space c = false).

Section FurtherVocabulary.

Context {W : Type} {dev : Device W}.

(** A computation that leaves the observation [f] of the instance fields
    alone, whatever its outcome. *)
Definition keeps_field {X A} (f : Ctrl -> X) (m : M W A) : Prop :=
  forall s, f (ctrl (snd (m s))) = f (ctrl s).

(** An observation that the binding of a motor does not change. *)
Definition blind_to_binding {X} (f : Ctrl -> X) : Prop :=
  (forall n c, f (set_last_motor_name n c) = f c) /\
  (forall a c, f (set_motor_axis a c) = f c) /\
  (forall v c, f (set_calibration v c) = f c).

(** [retried op n w r w' k]: the retry policy with a budget of [n] attempts
    of the device operation [op], from the world [w], takes [k] attempts
    and ends in the world [w'] with the answer [r] of the first attempt
    that did not raise, [None] when every attempt raised. *)
Inductive retried {A} (op : W -> result A * W) :
  nat -> W -> option A -> W -> nat -> Prop :=
| retried_exhausted w :
    retried op 0 w None w 0
| retried_success n w a w' :
    op w = (Ok a, w') ->
    retried op (S n) w (Some a) w' 1
| retried_failure n w e w' r w'' k :
    op w = (Raise e, w') ->
    retried op n w' r w'' k ->
    retried op (S n) w r w'' (S k).

End FurtherVocabulary.

(** * Properties *)

Section Frame.

Context {W : Type} {dev : Device W}.

Lemma keeps_ret A (a : A) : keeps_ctrl (W := W) (ret a).
Proof. intro s; reflexivity. Qed.

Lemma keeps_raise A e : keeps_ctrl (@raise W A e).
Proof. intro s; reflexivity. Qed.

Lemma keeps_get : keeps_ctrl (@get W).
Proof. intro s; reflexivity. Qed.

Lemma keeps_lift A (r : result A) : keeps_ctrl (@lift W A r).
Proof. intro s; reflexivity. Qed.

Lemma keeps_emit ev : keeps_ctrl (@emit W ev).
Proof. intro s; reflexivity. Qed.

Lemma keeps_call A ev (op : W -> result A * W) : keeps_ctrl (call ev op).
Proof. intro s; unfold call; destruct (op (world s)); reflexivity. Qed.

Lemma keeps_bind A B (m : M W A) (k : A -> M W B) :
  keeps_ctrl m -> (forall a, keeps_ctrl (k a)) -> keeps_ctrl (bind m k).
Proof.
  intros Hm Hk s; unfold bind.
  specialize (Hm s); destruct (m s) as [[a | e] s']; simpl in *.
  - rewrite Hk; exact Hm.
  - exact Hm.
Qed.

Lemma keeps_for_each A (l : list A) (body : A -> M W unit) :
  (forall a, keeps_ctrl (body a)) -> keeps_ctrl (for_each l body).
Proof.
  intro Hb; induction l as [| a l IH]; simpl.
  - apply keeps_ret.
  - apply keeps_bind; [apply Hb | intros _; exact IH].
Qed.

Lemma keeps_retry A n (attempt : M W A) :
  keeps_ctrl attempt -> keeps_ctrl (retry n attempt).
Proof.
  intro Ha; induction n as [| n IH]; intro s; simpl.
  - reflexivity.
  - specialize (Ha s); destruct (attempt s) as [[a | e] s']; simpl in *.
    + exact Ha.
    + rewrite IH; exact Ha.
Qed.

Lemma quiet_ret f A (a : A) : quiet (W := W) f (ret a).
Proof. intro s; reflexivity. Qed.

Lemma quiet_raise f A e : quiet f (@raise W A e).
Proof. intro s; reflexivity. Qed.

Lemma quiet_get f : quiet f (@get W).
Proof. intro s; reflexivity. Qed.

Lemma quiet_lift f A (r : result A) : quiet f (@lift W A r).
Proof. intro s; reflexivity. Qed.

Lemma quiet_modify f g : quiet f (@modify W g).
Proof. intro s; reflexivity. Qed.

Lemma quiet_emit f ev : f ev = false -> quiet f (@emit W ev).
Proof.
  intros H s; simpl. rewrite filter_app; simpl; rewrite H.
  apply app_nil_r.
Qed.

Lemma quiet_call f A ev (op : W -> result A * W) :
  f ev = false -> quiet f (call ev op).
Proof.
  intros H s; unfold call; destruct (op (world s)); simpl.
  rewrite filter_app; simpl; rewrite H. apply app_nil_r.
Qed.

Lemma quiet_bind f A B (m : M W A) (k : A -> M W B) :
  quiet f m -> (forall a, quiet f (k a)) -> quiet f (bind m k).
Proof.
  intros Hm Hk s; unfold bind.
  specialize (Hm s); destruct (m s) as [[a | e] s']; simpl in *.
  - rewrite Hk; exact Hm.
  - exact Hm.
Qed.

End Frame.

Ltac frame :=
repeat first
  [ progress intros
  | apply keeps_bind | apply keeps_for_each | apply keeps_retry
  | apply keeps_call | apply keeps_emit | apply keeps_get
  | apply keeps_ret | apply keeps_raise | apply keeps_lift
  | match goal with |- keeps_ctrl (if ?b then _ else _) => destruct b end
  | match goal with |- keeps_ctrl (match ?x with _ => _ end) => destruct x end ].

Section Lifecycle.

Context {W : Type} {dev : Device W}.

Lemma keeps_set_out out : keeps_ctrl (_set_out out).
Proof. unfold _set_out; frame. Qed.

Lemma keeps_StateOne axis : keeps_ctrl (StateOne axis).
Proof. unfold StateOne; frame. Qed.

Lemma keeps_PreStartOne axis : keeps_ctrl (PreStartOne axis).
Proof. unfold PreStartOne; frame; apply keeps_set_out. Qed.

Lemma keeps_StartOne axis : keeps_ctrl (StartOne axis).
Proof. unfold StartOne; frame; apply keeps_set_out. Qed.

Lemma keeps_AbortOne axis : keeps_ctrl (AbortOne axis).
Proof. unfold AbortOne; apply keeps_set_out. Qed.

(** C9.  [StateOne], [PreStartOne], [StartOne] and [AbortOne] leave the
    channel configuration unchanged: after any of them, from any state
    and whatever the device answers (exceptions included), every instance
    field -- the time-mode flag, the start-trigger-only flag, the bound
    motor name, the resolved axis and the three calibration constants
    among them -- has the value it had before.  Only the world and the
    log of calls may differ. *)
Theorem lifecycle_frame (axis : Z) (s : St W) :
  let unchanged (s' : St W) :=
    _time_mode (ctrl s') = _time_mode (ctrl s) /\
    _start_trigger_only (ctrl s') = _start_trigger_only (ctrl s) /\
    _last_motor_name (ctrl s') = _last_motor_name (ctrl s) /\
    _motor_axis (ctrl s') = _motor_axis (ctrl s) /\
    _motor_spu (ctrl s') = _motor_spu (ctrl s) /\
    _motor_offset (ctrl s') = _motor_offset (ctrl s) /\
    _motor_sign (ctrl s') = _motor_sign (ctrl s) /\
    ctrl s' = ctrl s in
  unchanged (snd (StateOne axis s)) /\
  unchanged (snd (PreStartOne axis s)) /\
  unchanged (snd (StartOne axis s)) /\
  unchanged (snd (AbortOne axis s)).
Proof.
  intro unchanged.
  assert (H : forall s', ctrl s' = ctrl s -> unchanged s').
  { intros s' E; unfold unchanged; rewrite E; repeat split. }
  split; [| split; [| split]]; apply H.
  - apply keeps_StateOne.
  - apply keeps_PreStartOne.
  - apply keeps_StartOne.
  - apply keeps_AbortOne.
Qed.

End Lifecycle.

(** ** Polling *)

Section Polling.

Context {W : Type} {dev : Device W}.

Lemma polled_budget axis n w r w' k :
  polled axis n w r w' k -> (k <= n)%nat.
Proof. induction 1; lia. Qed.

Lemma polled_unreachable axis n w r w' k :
  polled axis n w r w' k -> r = None -> k = n.
Proof.
  induction 1 as [| | n w e w' r w'' k _ _ IH]; intro E.
  - reflexivity.
  - discriminate.
  - rewrite (IH E); reflexivity.
Qed.

Lemma polled_dead :
  (forall ax w, exists e w', axis_state ax w = (Raise e, w')) ->
  forall axis n w r w' k, polled axis n w r w' k -> r = None.
Proof.
  intros Hdead axis n w r w' k Hp.
  induction Hp as [| n w h w' Hok |]; auto.
  destruct (Hdead axis w) as (e & w1 & He); congruence.
Qed.

Lemma retry_read_state axis n : forall s : St W,
  exists r w' k,
    polled axis n (world s) r w' k /\
    retry n (call (ReadState axis) (axis_state axis)) s =
      (Ok r, {| ctrl := ctrl s; world := w';
                log := log s ++ repeat (ReadState axis) k |}).
Proof.
  induction n as [| n IH]; intro s.
  - exists None, (world s), 0%nat; split; [constructor |].
    simpl; unfold ret; destruct s; simpl; rewrite app_nil_r; reflexivity.
  - simpl; unfold call at 1.
    destruct (axis_state axis (world s)) as [[h | e] w1] eqn:E.
    + exists (Some h), w1, 1%nat; split; [now constructor | reflexivity].
    + destruct (IH {| ctrl := ctrl s; world := w1;
                      log := log s ++ [ReadState axis] |})
        as (r & w' & k & Hp & Hr).
      exists r, w', (S k); split; [econstructor; eassumption |].
      rewrite Hr; simpl; rewrite <- app_assoc; reflexivity.
Qed.

(** A poll is a run of the retry policy followed by the classification
    of what was read. *)
Lemma StateOne_run (axis : Z) (s : St W) :
  let ax := _motor_axis (ctrl s) in
  let N := Z.to_nat (_retries_nr (ctrl s)) in
  exists (r : option HwState) (w' : W) (k : nat),
    polled ax N (world s) r w' k /\
    StateOne axis s =
      (Ok (hw_state_to_State r),
       {| ctrl := ctrl s; world := w';
          log := log s ++ repeat (ReadState ax) k |}).
Proof.
  intros ax N.
  destruct (retry_read_state ax N s) as (r & w' & k & Hp & Hr).
  exists r, w', k; split; [exact Hp |].
  unfold StateOne, bind, get; fold ax; fold N; rewrite Hr; reflexivity.
Qed.

(** C7.  [StateOne] never raises.  From any state and on any device it
    returns a state that is one of ALARM, MOVING and READY ([On]) and
    leaves the instance fields alone.  It reads the motor state under the
    retry policy: at most [N = _retries_nr] attempts, stopping at the
    first that succeeds.  When all [N] attempts fail, or the reading says
    the motor is not powered, the state is ALARM; when the motor is
    powered and moving or settling it is MOVING; otherwise it is READY. *)
Theorem StateOne_never_raises (axis : Z) (s : St W) :
  let ax := _motor_axis (ctrl s) in
  let N := Z.to_nat (_retries_nr (ctrl s)) in
  exists (r : option HwState) (w' : W) (k : nat) (state : State) (status : string),
    StateOne axis s =
      (Ok (state, status),
       {| ctrl := ctrl s; world := w';
          log := log s ++ repeat (ReadState ax) k |}) /\
    polled ax N (world s) r w' k /\
    (k <= N)%nat /\
    (state = Alarm \/ state = Moving \/ state = On) /\
    (r = None -> k = N /\ state = Alarm) /\
    (forall h, r = Some h -> is_poweron h = false -> state = Alarm) /\
    (forall h, r = Some h -> is_poweron h = true ->
       is_moving h = true \/ is_settling h = true -> state = Moving) /\
    (forall h, r = Some h -> is_poweron h = true ->
       is_moving h = false -> is_settling h = false -> state = On).
Proof.
  intros ax N.
  destruct (StateOne_run axis s) as (r & w' & k & Hp & Hr).
  exists r, w', k, (fst (hw_state_to_State r)), (snd (hw_state_to_State r)).
  split; [rewrite <- surjective_pairing; exact Hr |].
  split; [exact Hp |].
  split; [exact (polled_budget _ _ _ _ _ _ Hp) |].
  split.
  { destruct r as [[[] [] []] |]; simpl; auto. }
  split.
  { intro E; split; [exact (polled_unreachable _ _ _ _ _ _ Hp E) |].
    subst r; reflexivity. }
  split; [| split].
  - intros h -> Hpow; simpl; rewrite Hpow; reflexivity.
  - intros h -> Hpow [Hm | Hm]; simpl; rewrite Hpow, Hm; simpl;
      [reflexivity | rewrite orb_true_r; reflexivity].
  - intros h -> Hpow Hm Hs; simpl; rewrite Hpow, Hm, Hs; reflexivity.
Qed.

(** On a device whose state reads always fail, a poll spends the whole
    budget and reports ALARM. *)
Lemma StateOne_unreachable (axis : Z) (s : St W) :
  (forall ax w, exists e w', axis_state ax w = (Raise e, w')) ->
  exists status s',
    StateOne axis s = (Ok (Alarm, status), s') /\
    log s' = log s ++ repeat (ReadState (_motor_axis (ctrl s)))
                             (Z.to_nat (_retries_nr (ctrl s))).
Proof.
  intro Hdead.
  destruct (StateOne_run axis s) as (r & w' & k & Hp & Hr).
  assert (E : r = None) by exact (polled_dead Hdead _ _ _ _ _ _ Hp).
  rewrite (polled_unreachable _ _ _ _ _ _ Hp E) in Hr; subst r.
  eexists _, _; split; [exact Hr | reflexivity].
Qed.

End Polling.

(** ** Pulse emission *)

Section Pulse.

Context {W : Type} {dev : Device W}.

(** The loop over the output registers when the device accepts every
    write: all the registers are written, in the order of the list. *)
Lemma for_each_accepted ax value infos : forall s : St W,
  writes_succeed ax value infos (world s) ->
  for_each infos
    (fun info => call (SetAttr ax info value) (axis_setattr ax info value)) s =
  (Ok tt, {| ctrl := ctrl s; world := written ax value infos (world s);
             log := log s ++ map (fun info => SetAttr ax info value) infos |}).
Proof.
  induction infos as [| info infos IH]; intros s H; simpl.
  - unfold ret; destruct s; simpl; rewrite app_nil_r; reflexivity.
  - destruct H as [H1 H2].
    unfold bind at 1, call at 1.
    destruct (axis_setattr ax info value (world s)) as [r w1];
      simpl in H1, H2 |- *; subst r.
    rewrite (IH {| ctrl := ctrl s; world := w1;
                   log := log s ++ [SetAttr ax info value] |} H2).
    simpl; rewrite <- app_assoc; reflexivity.
Qed.

(** The loop stops at the first write the device refuses: the registers
    before it have been written, the ones after it are not. *)
Lemma for_each_refused ax value pre info post e w2 : forall s : St W,
  writes_succeed ax value pre (world s) ->
  axis_setattr ax info value (written ax value pre (world s)) = (Raise e, w2) ->
  for_each (pre ++ info :: post)
    (fun info => call (SetAttr ax info value) (axis_setattr ax info value)) s =
  (Raise e, {| ctrl := ctrl s; world := w2;
               log := log s ++ map (fun info => SetAttr ax info value)
                                    (pre ++ [info]) |}).
Proof.
  induction pre as [| p pre IH]; intros s H E; simpl in *.
  - unfold bind at 1, call at 1; rewrite E; reflexivity.
  - destruct H as [H1 H2].
    unfold bind at 1, call at 1.
    destruct (axis_setattr ax p value (world s)) as [r w1];
      simpl in H1, H2, E |- *; subst r.
    rewrite (IH {| ctrl := ctrl s; world := w1;
                   log := log s ++ [SetAttr ax p value] |} H2 E).
    simpl; rewrite <- app_assoc; reflexivity.
Qed.

Lemma writes_succeed_always ax value infos : forall w : W,
  (forall ax name value w, fst (axis_setattr ax name value w) = Ok tt) ->
  writes_succeed ax value infos w.
Proof.
  induction infos as [| info infos IH]; intros w H; simpl; auto.
Qed.

Lemma drive_channels (c : Ctrl) out :
  drive c out =
  map (fun info => SetAttr (_motor_axis c) info (out, "normal")) (channels c).
Proof. unfold drive, channels; destruct (_use_master_out c); reflexivity. Qed.

Lemma filter_setattr ax value (infos : list string) :
  filter is_output (map (fun info => SetAttr ax info value) infos) =
  map (fun info => SetAttr ax info value) infos.
Proof.
  induction infos as [| i l IH]; simpl; [| rewrite IH]; reflexivity.
Qed.

(** What a run of [_set_out] amounts to, on any device: the handle of the
    axis is asked for, then the output registers are written one after the
    other, then [syncaux] is read back and printed; the first call that
    raises ends the run.  In master-output mode the single write to
    [syncaux] is the loop over that one register. *)
Lemma set_out_run out (s : St W) :
  let c := ctrl s in
  let ax := _motor_axis c in
  let value := (out, "normal") in
  _set_out out s =
  match ipap_getitem ax (world s) with
  | (Raise e, w1) =>
      (Raise e, {| ctrl := c; world := w1; log := log s ++ [IpapGetItem ax] |})
  | (Ok _, w1) =>
      match
        for_each (channels c)
          (fun info => call (SetAttr ax info value)
                            (axis_setattr ax info value))
          {| ctrl := c; world := w1; log := log s ++ [IpapGetItem ax] |}
      with
      | (Raise e, s2) => (Raise e, s2)
      | (Ok _, s2) =>
          match axis_syncaux ax (world s2) with
          | (Raise e, w3) =>
              (Raise e, {| ctrl := ctrl s2; world := w3;
                           log := log s2 ++ [ReadSyncaux ax] |})
          | (Ok text, w3) =>
              (Ok tt, {| ctrl := ctrl s2; world := w3;
                         log := log s2 ++ [ReadSyncaux ax; Print text] |})
          end
      end
  end.
Proof.
  intros c ax value; subst c ax value.
  unfold _set_out; unfold bind at 1, get at 1; cbv beta iota.
  unfold bind at 1, call at 1.
  destruct (ipap_getitem (_motor_axis (ctrl s)) (world s)) as [[[] | e] w1];
    [| reflexivity].
  unfold bind at 1, channels.
  destruct (_use_master_out (ctrl s)).
  - simpl for_each; unfold bind, call, emit, ret; cbn [world ctrl log].
    destruct (axis_setattr _ _ _ _) as [[[] | e] w2]; [| reflexivity].
    cbn [world ctrl log].
    destruct (axis_syncaux _ w2) as [[text | e] w3]; simpl;
      rewrite <- ?app_assoc; reflexivity.
  - destruct (for_each _ _ _) as [[[] | e] s2]; [| reflexivity].
    unfold bind, call, emit; simpl.
    destruct (axis_syncaux _ (world s2)) as [[text | e] w3]; simpl;
      rewrite <- ?app_assoc; reflexivity.
Qed.

(** On a device that accepts the register accesses, [_set_out] returns
    normally, the world is the driven one and the calls are those of
    [set_out_events]. *)
Lemma set_out_accepted out (s : St W) :
  outputs_never_fail ->
  _set_out out s =
  (Ok tt, {| ctrl := ctrl s; world := driven (ctrl s) out (world s);
             log := log s ++ set_out_events (ctrl s) out (world s) |}).
Proof.
  intros (Hget & Hset & Hread).
  rewrite set_out_run; cbv zeta.
  unfold set_out_events, driven, syncaux_text.
  specialize (Hget (_motor_axis (ctrl s)) (world s)).
  destruct (ipap_getitem (_motor_axis (ctrl s)) (world s)) as [r w1];
    simpl in Hget |- *; subst r.
  rewrite for_each_accepted by (apply writes_succeed_always; exact Hset).
  cbn [world ctrl log].
  destruct (Hread (_motor_axis (ctrl s))
              (written (_motor_axis (ctrl s)) (out, "normal")
                 (channels (ctrl s)) w1)) as (text & Ht).
  destruct (axis_syncaux _ _) as [r w3]; simpl in Ht |- *; subst r.
  rewrite drive_channels, <- !app_assoc; reflexivity.
Qed.

Lemma filter_set_out_events (c : Ctrl) out (w : W) :
  filter is_output (set_out_events c out w) = drive c out.
Proof.
  unfold set_out_events; rewrite drive_channels; simpl.
  rewrite filter_app, filter_setattr; simpl; apply app_nil_r.
Qed.

(** The pulse of [StartOne] in time mode. *)
Lemma StartOne_time_mode (axis : Z) (s : St W) :
  _time_mode (ctrl s) = true -> outputs_never_fail ->
  StartOne axis s =
    (Ok tt,
     {| ctrl := ctrl s;
        world := driven (ctrl s) LOW (driven (ctrl s) HIGH (world s));
        log := log s ++
               set_out_events (ctrl s) HIGH (world s) ++ [Sleep (1 # 100)] ++
               set_out_events (ctrl s) LOW (driven (ctrl s) HIGH (world s)) |}).
Proof.
  intros Hm Hdev.
  unfold StartOne, bind at 1, get; rewrite Hm.
  change (negb true) with false; cbv beta iota.
  unfold bind at 1; rewrite (set_out_accepted HIGH s Hdev).
  unfold bind at 1, emit at 1; cbn [world ctrl log].
  rewrite set_out_accepted by exact Hdev; cbn [world ctrl log].
  rewrite <- !app_assoc; reflexivity.
Qed.

Lemma filter_pulse (c : Ctrl) (w w1 : W) :
  filter is_output
    (set_out_events c HIGH w ++ [Sleep (1 # 100)] ++ set_out_events c LOW w1) =
  drive c HIGH ++ [Sleep (1 # 100)] ++ drive c LOW.
Proof. rewrite !filter_app, !filter_set_out_events; reflexivity. Qed.

(** C8.  In position mode (time mode off) [StartOne] is a no-op: it
    returns at once and the whole state -- instance fields, world and log
    of calls -- is the one it started from, so no output is written.  In
    time mode, on a device that accepts the register accesses, it
    returns normally having driven the output HIGH, slept 10 ms and
    driven the output LOW: the world it leaves is the one in which the
    device has served, in this order, the write of [(HIGH, "normal")] to
    every output register and the write of [(LOW, "normal")] to every
    output register; the calls it has issued are those of the first drive,
    the dwell of 10 ms and those of the second drive, and the register
    writes and dwells among them are exactly HIGH, Sleep, LOW; the instance
    fields are unchanged. *)
Theorem StartOne_pulse (axis : Z) (s : St W) :
  (_time_mode (ctrl s) = false -> StartOne axis s = (Ok tt, s)) /\
  (_time_mode (ctrl s) = true -> outputs_never_fail ->
   let c := ctrl s in
   let w1 := driven c HIGH (world s) in
   let evs :=
     set_out_events c HIGH (world s) ++ [Sleep (1 # 100)] ++
     set_out_events c LOW w1 in
   StartOne axis s =
     (Ok tt, {| ctrl := c; world := driven c LOW w1; log := log s ++ evs |}) /\
   filter is_output evs =
     drive c HIGH ++ [Sleep (1 # 100)] ++ drive c LOW).
Proof.
  split.
  - intro Hm; unfold StartOne, bind, get; rewrite Hm; reflexivity.
  - intros Hm Hdev c w1 evs; split.
    + exact (StartOne_time_mode axis s Hm Hdev).
    + apply filter_pulse.
Qed.

End Pulse.

(** ** Binding a motor *)

Ltac quiet :=
repeat first
  [ progress intros
  | apply quiet_bind | apply quiet_get | apply quiet_ret
  | apply quiet_raise | apply quiet_lift | apply quiet_modify
  | apply quiet_call; reflexivity | apply quiet_emit; reflexivity
  | match goal with |- quiet _ (if ?b then _ else _) => destruct b end
  | match goal with |- quiet _ (match ?x with _ => _ end) => destruct x end ].

Lemma name_eqb_true a b : name_eqb a b = true <-> a = Some b.
Proof.
destruct a as [a |]; simpl.
- rewrite String.eqb_eq; split; congruence.
- split; discriminate.
Qed.

Lemma name_eqb_false a b : name_eqb a b = false <-> a <> Some b.
Proof.
rewrite <- name_eqb_true; destruct (name_eqb a b); split; congruence.
Qed.

Section Binding.

Context {W : Type} {dev : Device W}.

(** What a run of [_configureMotor] amounts to: the name is recorded,
    then the axis is resolved and recorded, then the calibration is read
    and recorded; the first call that raises ends the run.  The wiring
    of the multiplexer is never reached: the comparison that guards it
    reads the name back from the field it was just stored in. *)
Lemma _configureMotor_run (name : option string) (s : St W) :
  let n := resolved_name name (ctrl s) in
  let c0 := set_last_motor_name (Some n) (ctrl s) in
  _configureMotor name s =
  match taurus_axis (Some n) (world s) with
  | (Raise e, w1) =>
      (Raise e, {| ctrl := c0; world := w1;
                   log := log s ++ [TaurusAxis (Some n)] |})
  | (Ok a, w1) =>
      match taurus_read_attributes (Some n) w1 with
      | (Raise e, w2) =>
          (Raise e,
           {| ctrl := set_motor_axis (Some a) c0; world := w2;
              log := log s ++ [TaurusAxis (Some n);
                               TaurusReadAttributes (Some n)] |})
      | (Ok v, w2) =>
          (Ok tt,
           {| ctrl := set_calibration v (set_motor_axis (Some a) c0);
              world := w2;
              log := log s ++ [TaurusAxis (Some n);
                               TaurusReadAttributes (Some n)] |})
      end
  end.
Proof.
  intros n c0; subst c0 n.
  unfold _configureMotor, bind, get, modify, call, resolved_name; simpl.
  set (n := match name with Some n => n | None => _ end).
  destruct (taurus_axis (Some n) (world s)) as [[a | e] w1]; simpl;
    [| reflexivity].
  destruct (taurus_read_attributes (Some n) w1) as [[v | e] w2]; simpl.
  - destruct v as [[spu offset] sign]; simpl.
    rewrite String.eqb_refl, <- app_assoc; reflexivity.
  - rewrite <- app_assoc; reflexivity.
Qed.

(** The fields [_configureMotor] does not touch, and the name it binds. *)
Lemma _configureMotor_fields (name : option string) (s : St W) :
  let c' := ctrl (snd (_configureMotor name s)) in
  props c' = props (ctrl s) /\
  _time_mode c' = _time_mode (ctrl s) /\
  _start_trigger_only c' = _start_trigger_only (ctrl s) /\
  _use_master_out c' = _use_master_out (ctrl s) /\
  _axis_info_list c' = _axis_info_list (ctrl s) /\
  _retries_nr c' = _retries_nr (ctrl s) /\
  _last_motor_name c' = Some (resolved_name name (ctrl s)).
Proof.
  rewrite _configureMotor_run.
  destruct (taurus_axis _ _) as [[a | e] w1]; simpl;
    [| repeat split].
  destruct (taurus_read_attributes _ _) as [[[[spu offset] sign] | e] w2];
    simpl; repeat split.
Qed.

Lemma quiet_configureMotor name : quiet is_upload (_configureMotor name).
Proof. unfold _configureMotor; quiet. Qed.

(** C1 (the code departs from it).  Calling [setMasterMotor] (that is,
    [_configureMotor]) twice in succession with the same motor performs
    no multiplexer reassignment at all: neither the first nor the second
    call clears or adds an assignment, in master-output mode as in
    auxiliary-output mode, from any state and on any device.  The only
    calls a run issues are the two registry look-ups. *)
Theorem configureMotor_never_rewires (axis : Z) (m : string) (s : St W) :
  let s1 := snd (setMasterMotor axis m s) in
  let s2 := snd (setMasterMotor axis m s1) in
  filter is_pmux_write (log s1) = filter is_pmux_write (log s) /\
  filter is_pmux_write (log s2) = filter is_pmux_write (log s1) /\
  exists evs1 evs2,
    log s1 = log s ++ evs1 /\ log s2 = log s1 ++ evs2 /\
    Forall (fun ev => ev = TaurusAxis (Some m) \/
                      ev = TaurusReadAttributes (Some m)) (evs1 ++ evs2).
Proof.
  assert (H : forall s0 : St W, exists evs,
             log (snd (setMasterMotor axis m s0)) = log s0 ++ evs /\
             Forall (fun ev => ev = TaurusAxis (Some m) \/
                               ev = TaurusReadAttributes (Some m)) evs).
  { intro s0; unfold setMasterMotor; rewrite _configureMotor_run; simpl.
    destruct (taurus_axis _ _) as [[a | e] w1]; simpl.
    - destruct (taurus_read_attributes _ _) as [[v | e] w2]; simpl;
        eexists; (split; [reflexivity |]);
        repeat (apply Forall_cons; [auto |]); apply Forall_nil.
    - eexists; (split; [reflexivity |]);
        repeat (apply Forall_cons; [auto |]); apply Forall_nil. }
  assert (F : forall evs,
             Forall (fun ev => ev = TaurusAxis (Some m) \/
                               ev = TaurusReadAttributes (Some m)) evs ->
             filter is_pmux_write evs = []).
  { induction 1 as [| ev evs [-> | ->] _ IH]; simpl; auto. }
  intros s1 s2.
  destruct (H s) as (evs1 & L1 & F1).
  destruct (H s1) as (evs2 & L2 & F2).
  fold s1 in L1; fold s2 in L2.
  split; [| split].
  - rewrite L1, filter_app, (F _ F1); apply app_nil_r.
  - rewrite L2, filter_app, (F _ F2); apply app_nil_r.
  - exists evs1, evs2; split; [exact L1 |]; split; [exact L2 |].
    apply Forall_app; split; assumption.
Qed.

End Binding.

(** The run that shows it: a controller in master-output mode, freshly
  initialised, on a bench where every call succeeds.  The first
  [setMasterMotor] resolves [m1] and returns; the log holds no
  [ClearPmux] and no [AddPmux]. *)
Example configureMotor_first_call_on_bench :
setMasterMotor (dev := bench 1000 0 1) 1 "m1" (booted props_master 5 tt) =
(Ok tt,
 {| ctrl :=
      set_calibration (1000, 0, 1)%float
        (set_motor_axis (Some 1)
           (set_last_motor_name (Some "m1") (fresh props_master 5)));
    world := tt;
    log := [Connect "ipap"; TaurusAxis (Some "m1");
            TaurusReadAttributes (Some "m1")] |}).
Proof. reflexivity. Qed.

(** ** Synchronization by time *)

Section TimeDomain.

Context {W : Type} {dev : Device W}.

Lemma quiet_check_cable name : quiet is_upload (check_cable (W := W) name).
Proof. unfold check_cable; quiet. Qed.

Lemma check_cable_pass name (s : St W) :
  _use_master_out (ctrl s) = true \/
  name = Some (DefaultMotor (props (ctrl s))) ->
  check_cable name s = (Ok tt, s).
Proof.
  intros [H | H]; unfold check_cable, bind, get.
  - rewrite H; reflexivity.
  - apply name_eqb_true in H; rewrite H, andb_false_r; reflexivity.
Qed.

Lemma check_cable_mismatch name (s : St W) :
  _use_master_out (ctrl s) = false ->
  name <> Some (DefaultMotor (props (ctrl s))) ->
  check_cable name s = (Raise (RuntimeError msg_cable), s).
Proof.
  intros H1 H2; unfold check_cable, bind, get.
  apply name_eqb_false in H2; rewrite H1, H2; reflexivity.
Qed.

(** C6, as the code has it.  For a request whose first group carries no
    initial position:
    - with [Repeats > 1], [SynchOne] raises the [ValueError] about
      multiple triggers by time and the state is unchanged;
    - with [Repeats <= 1], it sets the time mode, and no trigger table is
      uploaded whatever happens next.  Then, in auxiliary-output mode
      with a last-bound motor name that is not the default motor, it
      raises the cable error, the time mode being set and nothing else
      changed.  Otherwise it is the run of [_configureMotor] on the
      previously bound name (the default motor when there is none) from
      the state with the time mode set: that name is bound again, and
      the call returns normally exactly when the resolution does. *)
Theorem SynchOne_time_domain (axis : Z) (g : SynchGroup)
    (rest : list SynchGroup) (s : St W) :
  Initial g = None ->
  let last := _last_motor_name (ctrl s) in
  let default := DefaultMotor (props (ctrl s)) in
  let s1 := with_ctrl (set_time_mode true (ctrl s)) s in
  let out := SynchOne axis (g :: rest) s in
  (1 < Repeats g -> out = (Raise (ValueError msg_multiple_time), s)) /\
  (Repeats g <= 1 ->
     _time_mode (ctrl (snd out)) = true /\
     filter is_upload (log (snd out)) = filter is_upload (log s) /\
     (_use_master_out (ctrl s) = false -> last <> Some default ->
        out = (Raise (RuntimeError msg_cable), s1)) /\
     (_use_master_out (ctrl s) = true \/ last = Some default ->
        out = _configureMotor last s1 /\
        _last_motor_name (ctrl (snd out)) =
          Some (resolved_name last (ctrl s)) /\
        (fst (_configureMotor last s1) = Ok tt -> fst out = Ok tt))).
Proof.
  intros Hi last default s1 out.
  split.
  - intro Hn; apply Z.ltb_lt in Hn.
    subst out; unfold SynchOne; rewrite Hi.
    unfold bind at 1; rewrite Hn; reflexivity.
  - intro Hn; apply Z.ltb_ge in Hn.
    assert (E : out = bind (check_cable last)
                           (fun _ => _configureMotor last) s1).
    { subst out; unfold SynchOne; rewrite Hi.
      unfold bind at 1; rewrite Hn; reflexivity. }
    rewrite E; clear E.
    assert (Hq : forall s0 : St W,
               filter is_upload
                 (log (snd (bind (check_cable last)
                              (fun _ => _configureMotor last) s0))) =
               filter is_upload (log s0)).
    { apply quiet_bind; [apply quiet_check_cable |].
      intros _; apply quiet_configureMotor. }
    assert (Hpass : _use_master_out (ctrl s) = true \/ last = Some default ->
                    bind (check_cable last) (fun _ => _configureMotor last) s1 =
                    _configureMotor last s1).
    { intro H; unfold bind at 1; rewrite check_cable_pass; [reflexivity |].
      exact H. }
    assert (Hfail : _use_master_out (ctrl s) = false -> last <> Some default ->
                    bind (check_cable last) (fun _ => _configureMotor last) s1 =
                    (Raise (RuntimeError msg_cable), s1)).
    { intros H1 H2; unfold bind at 1.
      rewrite check_cable_mismatch; [reflexivity | exact H1 | exact H2]. }
    split; [| split; [| split]].
    + destruct (_use_master_out (ctrl s)) eqn:Hm.
      * rewrite Hpass by auto.
        destruct (_configureMotor_fields last s1) as (_ & -> & _).
        reflexivity.
      * destruct (name_eqb last default) eqn:Hd.
        -- apply name_eqb_true in Hd. rewrite Hpass by auto.
           destruct (_configureMotor_fields last s1) as (_ & -> & _).
           reflexivity.
        -- apply name_eqb_false in Hd. rewrite Hfail by auto.
           reflexivity.
    + rewrite Hq; reflexivity.
    + exact Hfail.
    + intro H; rewrite (Hpass H).
      split; [reflexivity |]; split; [| auto].
      destruct (_configureMotor_fields last s1) as (_ & _ & _ & _ & _ & _ & ->).
      reflexivity.
Qed.

(** C10, as the code has it.  In auxiliary-output mode, when no motor
    has been bound yet ([_last_motor_name] is still [None], which differs
    from any default motor name), [SynchOne] raises the cable error on
    every position-domain request and on every time-domain request with
    [Repeats <= 1]; the time mode is set according to the domain and
    nothing else changes.  [_configureMotor], had it been called with
    the unset name, would have bound the default motor. *)
Theorem SynchOne_unbound_aux (axis : Z) (g : SynchGroup)
    (rest : list SynchGroup) (s : St W) :
  _use_master_out (ctrl s) = false ->
  _last_motor_name (ctrl s) = None ->
  (Initial g = None -> Repeats g <= 1) ->
  SynchOne axis (g :: rest) s =
    (Raise (RuntimeError msg_cable),
     with_ctrl
       (set_time_mode
          (match Initial g with None => true | Some _ => false end)
          (ctrl s)) s) /\
  _last_motor_name (ctrl (snd (_configureMotor None s))) =
    Some (DefaultMotor (props (ctrl s))).
Proof.
  intros Hm Hl Hn; split.
  - unfold SynchOne; destruct (Initial g) as [p0 |].
    + unfold bind at 1.
      change (modify (set_time_mode false) s)
        with (Ok tt, with_ctrl (set_time_mode false (ctrl s)) s).
      cbv beta iota; unfold bind at 1, get at 1; cbv beta iota.
      unfold bind at 1; rewrite check_cable_mismatch;
        [reflexivity | exact Hm |].
      simpl; rewrite Hl; discriminate.
    + specialize (Hn eq_refl); apply Z.ltb_ge in Hn.
      unfold bind at 1; rewrite Hn.
      change (modify (set_time_mode true) s)
        with (Ok tt, with_ctrl (set_time_mode true (ctrl s)) s).
      cbv beta iota; unfold bind at 1, get at 1; cbv beta iota.
      unfold bind at 1; rewrite check_cable_mismatch;
        [reflexivity | exact Hm |].
      simpl; rewrite Hl; discriminate.
  - destruct (_configureMotor_fields None s) as (_ & _ & _ & _ & _ & _ & ->).
    reflexivity.
Qed.

(** A controller that has just been initialised has no motor bound. *)
Lemma init_unbound (p : Props) (w : W) (s : St W) :
  __init__ p w = Ok s ->
  _last_motor_name (ctrl s) = None /\
  _use_master_out (ctrl s) = UseMasterOut p /\
  _time_mode (ctrl s) = false /\
  _start_trigger_only (ctrl s) = false.
Proof.
  unfold __init__; destruct (retries_nr _); [| discriminate].
  destruct (ipap_connect _ _ _) as [[[] | e] w']; [| discriminate].
  intro E; injection E as <-; repeat split.
Qed.

End TimeDomain.

(** ** Binary64 facts *)

Section Floats.

Lemma int_of_finite (x : float) :
  PyFloat.finite x = true -> exists k, PyFloat.int x = Ok k.
Proof.
  unfold PyFloat.finite, PyFloat.int.
  destruct (Prim2SF x); try discriminate; intros _; eexists; reflexivity.
Qed.

Lemma int_of_not_finite (x : float) :
  PyFloat.finite x = false -> exists e, PyFloat.int x = Raise e.
Proof.
  unfold PyFloat.finite, PyFloat.int.
  destruct (Prim2SF x); try discriminate; intros _; eexists; reflexivity.
Qed.


Lemma all_from_spec (f : Z -> bool) (n : nat) : forall z k,
  all_from f n z = true -> z <= k < z + Z.of_nat n -> f k = true.
Proof.
  induction n as [| n IH]; intros z k H Hk; [lia |].
  simpl in H; apply andb_prop in H; destruct H as [H1 H2].
  destruct (Z.eq_dec k z) as [-> | Hne]; [exact H1 |].
  apply (IH (z + 1)); [exact H2 | lia].
Qed.



Lemma truediv_ok (a b : float) :
  PrimFloat.eqb b zero = false -> PyFloat.truediv a b = Ok (a / b)%float.
Proof. intro Hb; unfold PyFloat.truediv; rewrite Hb; reflexivity. Qed.











End Floats.

(** ** The trigger table *)

Section Linspace.













End Linspace.

(** ** Synchronization by position *)

Section PositionDomain.

Context {W : Type} {dev : Device W}.



(** The position-domain branch of [SynchOne], once the cable check has
    passed, the motor has been resolved, the group has a total span and
    the sign is not zero: the conversion of the count, the formatting of
    the step, and the choice of the table. *)
Lemma SynchOne_position (axis : Z) (g : SynchGroup) (rest : list SynchGroup)
    (s s2 : St W) (initial total : float) :
  Initial g = Some initial ->
  Total g = Some total ->
  (_use_master_out (ctrl s) = true \/
   _last_motor_name (ctrl s) = Some (DefaultMotor (props (ctrl s)))) ->
  _configureMotor (_last_motor_name (ctrl s))
    (with_ctrl (set_time_mode false (ctrl s)) s) = (Ok tt, s2) ->
  PrimFloat.eqb (_motor_sign (ctrl s2)) zero = false ->
  let start := steps_start (ctrl s2) initial in
  let delta := steps_delta (ctrl s2) total in
  SynchOne axis (g :: rest) s =
    match PyFloat.of_int (Repeats g) with
    | Raise e => (Raise e, s2)
    | Ok nr_float =>
        match PyFloat.int delta with
        | Raise e => (Raise e, s2)
        | Ok _ =>
            if _start_trigger_only (ctrl s) then upload [start] s2
            else if MAX_ECAM_VALUES <? Repeats g then
              (Raise (RuntimeError msg_capacity), s2)
            else
              match linspace start (start + delta * nr_float - delta)%float
                      (Repeats g) with
              | Ok table => upload table s2
              | Raise e => (Raise e, s2)
              end
        end
    end.
Proof.
  intros Hi Ht Hcable Hconf Hsign start delta.
  set (s1 := with_ctrl (set_time_mode false (ctrl s)) s) in *.
  assert (Hsto : _start_trigger_only (ctrl s2) = _start_trigger_only (ctrl s)).
  { destruct (_configureMotor_fields (_last_motor_name (ctrl s)) s1)
      as (_ & _ & H & _).
    rewrite Hconf in H; exact H. }
  unfold SynchOne; rewrite Hi, Ht.
  unfold bind at 1.
  change (modify (set_time_mode false) s) with (Ok tt, s1).
  cbv beta iota; unfold bind at 1, get at 1; cbv beta iota.
  change (_last_motor_name (ctrl s1)) with (_last_motor_name (ctrl s)).
  unfold bind at 1; rewrite (check_cable_pass _ s1 Hcable); cbv beta iota.
  unfold bind at 1; rewrite Hconf; cbv beta iota.
  unfold bind at 1, ret at 1; cbv beta iota.
  unfold bind at 1, get at 1; cbv beta iota.
  unfold bind at 1, lift at 1; rewrite (truediv_ok _ _ Hsign); cbv beta iota.
  unfold bind at 1, lift at 1; rewrite (truediv_ok _ _ Hsign); cbv beta iota.
  fold (steps_start (ctrl s2) initial); fold (steps_delta (ctrl s2) total).
  fold start; fold delta.
  unfold bind at 1, lift at 1.
  destruct (PyFloat.of_int (Repeats g)) as [nr_float | e]; [| reflexivity].
  unfold bind at 1, lift at 1.
  destruct (PyFloat.int delta) as [k | e]; [| reflexivity].
  unfold bind at 1; rewrite Hsto.
  destruct (_start_trigger_only (ctrl s)); [reflexivity |].
  destruct (MAX_ECAM_VALUES <? Repeats g); [reflexivity |].
  unfold lift; destruct (linspace _ _ _); reflexivity.
Qed.

End PositionDomain.

Section Tables.

Context {W : Type} {dev : Device W}.

Lemma check_cable_state name (s : St W) : snd (check_cable name s) = s.
Proof.
  unfold check_cable, bind, get.
  destruct (negb _ && negb _); reflexivity.
Qed.

(** With the start-trigger-only flag unset, a position-domain request
    above the ceiling never succeeds and never reaches the upload, on any
    device and from any state: the call ends in an exception, the capacity
    error unless an earlier step raised. *)
Lemma over_ceiling_never_uploads (axis : Z) (g : SynchGroup)
    (rest : list SynchGroup) (s : St W) (initial : float) :
  Initial g = Some initial ->
  MAX_ECAM_VALUES < Repeats g ->
  _start_trigger_only (ctrl s) = false ->
  (exists e, fst (SynchOne axis (g :: rest) s) = Raise e) /\
  filter is_upload (log (snd (SynchOne axis (g :: rest) s))) =
  filter is_upload (log s).
Proof.
  intros Hi Hn Hsto; apply Z.ltb_lt in Hn.
  set (s1 := with_ctrl (set_time_mode false (ctrl s)) s).
  assert (H : exists e s',
             SynchOne axis (g :: rest) s = (Raise e, s') /\
             filter is_upload (log s') = filter is_upload (log s)).
  { unfold SynchOne; rewrite Hi.
    unfold bind at 1.
    change (modify (set_time_mode false) s) with (Ok tt, s1).
    cbv beta iota; unfold bind at 1, get at 1; cbv beta iota.
    change (_last_motor_name (ctrl s1)) with (_last_motor_name (ctrl s)).
    unfold bind at 1.
    pose proof (check_cable_state (_last_motor_name (ctrl s)) s1) as Hc.
    destruct (check_cable (_last_motor_name (ctrl s)) s1) as [[[] | e] sc];
      simpl in Hc; subst sc; [| eexists _, _; split; reflexivity].
    unfold bind at 1.
    pose proof (_configureMotor_fields (_last_motor_name (ctrl s)) s1)
      as (_ & _ & Hf & _).
    pose proof (quiet_configureMotor (_last_motor_name (ctrl s)) s1) as Hq.
    destruct (_configureMotor (_last_motor_name (ctrl s)) s1) as [[[] | e] s2];
      simpl in Hf, Hq; [| eexists _, _; split; [reflexivity | exact Hq]].
    destruct (Total g) as [total |];
      [| eexists _, _; split; [reflexivity | exact Hq]].
    unfold bind at 1, ret at 1; cbv beta iota.
    unfold bind at 1, get at 1; cbv beta iota.
    unfold bind at 1, lift at 1, PyFloat.truediv.
    destruct (PrimFloat.eqb (_motor_sign (ctrl s2)) zero);
      [eexists _, _; split; [reflexivity | exact Hq] |].
    unfold bind at 1, lift at 1.
    unfold bind at 1, lift at 1.
    destruct (PyFloat.of_int (Repeats g)) as [nr_float | e];
      [| eexists _, _; split; [reflexivity | exact Hq]].
    unfold bind at 1, lift at 1.
    destruct (PyFloat.int _) as [k | e];
      [| eexists _, _; split; [reflexivity | exact Hq]].
    unfold bind at 1; rewrite Hf, Hsto, Hn.
    eexists _, _; split; [reflexivity | exact Hq]. }
  destruct H as (e & s' & -> & Hq); split; [exists e; reflexivity | exact Hq].
Qed.

(** C2, as the code has it.  For a position-domain request with more
    than 20477 points whose cable check passes and whose motor resolves
    (with a total span and a non-zero sign), the outcome is settled in this
    order.  The count is converted to a float for the product
    [delta * nr_points], which raises [OverflowError] when it is beyond
    the range of binary64; then the step [delta] is formatted as an
    integer for the debug message, which raises ([OverflowError] for an
    infinity, [ValueError] for a NaN) when it is not finite, whatever the
    start-trigger-only flag.  Past these, when the flag is unset
    [SynchOne] raises the capacity error and uploads nothing, the state
    being the one [_configureMotor] left; when the flag is set, the
    ceiling is not checked, and the one-entry table [start] goes to the
    upload loop. *)
Theorem SynchOne_capacity (axis : Z) (g : SynchGroup) (rest : list SynchGroup)
    (s s2 : St W) (initial total : float) :
  Initial g = Some initial ->
  Total g = Some total ->
  MAX_ECAM_VALUES < Repeats g ->
  (_use_master_out (ctrl s) = true \/
   _last_motor_name (ctrl s) = Some (DefaultMotor (props (ctrl s)))) ->
  _configureMotor (_last_motor_name (ctrl s))
    (with_ctrl (set_time_mode false (ctrl s)) s) = (Ok tt, s2) ->
  PrimFloat.eqb (_motor_sign (ctrl s2)) zero = false ->
  let start := steps_start (ctrl s2) initial in
  let delta := steps_delta (ctrl s2) total in
  (forall k nr_float,
     PyFloat.of_int (Repeats g) = Ok nr_float ->
     PyFloat.int delta = Ok k ->
     (_start_trigger_only (ctrl s) = false ->
        SynchOne axis (g :: rest) s =
          (Raise (RuntimeError msg_capacity), s2)) /\
     (_start_trigger_only (ctrl s) = true ->
        SynchOne axis (g :: rest) s = upload [start] s2)) /\
  (forall e,
     PyFloat.of_int (Repeats g) = Raise e ->
     SynchOne axis (g :: rest) s = (Raise e, s2)) /\
  (forall nr_float e,
     PyFloat.of_int (Repeats g) = Ok nr_float ->
     PyFloat.int delta = Raise e ->
     SynchOne axis (g :: rest) s = (Raise e, s2)).
Proof.
  intros Hi Ht Hn Hcable Hconf Hsign start delta.
  rewrite (SynchOne_position axis g rest s s2 initial total
             Hi Ht Hcable Hconf Hsign).
  fold start; fold delta.
  apply Z.ltb_lt in Hn; rewrite Hn.
  split; [| split].
  - intros k nr_float -> ->; split; intros ->; reflexivity.
  - intros e ->; reflexivity.
  - intros nr_float e -> ->; reflexivity.
Qed.




End Tables.

(** ** The retry count *)

Section RetryCount.

Lemma small_quotients : all_from quotient_ok 61 (-30) = true.
Proof. vm_compute; reflexivity. Qed.

Lemma quotient_ok_small (z : Z) : -30 <= z <= 30 -> quotient_ok z = true.
Proof.
  intro Hz; apply (all_from_spec _ _ _ _ small_quotients); lia.
Qed.

Lemma quotient_bounds (x : Q) :
  (1 # 10 <= x)%Q -> 0 <= Qfloor (3 / x) <= 30.
Proof.
  intro Hx; assert (Hpos : (0 < x)%Q) by lra.
  split.
  - change 0 with (Qfloor 0); apply Qfloor_resp_le.
    apply Qle_shift_div_l; [exact Hpos | lra].
  - change 30 with (Qfloor 30); apply Qfloor_resp_le.
    apply Qle_shift_div_r; [exact Hpos | lra].
Qed.

Lemma quotient_bounds_negative (x : Q) :
  (x <= - (1 # 10))%Q -> -30 <= Qfloor (3 / x) <= -1.
Proof.
  intro Hx.
  assert (Hpos : (0 < - x)%Q) by lra.
  assert (E : (3 / x == - (3 / - x))%Q) by (field; lra).
  assert (H1 : (0 < 3 / - x)%Q) by (apply Qlt_shift_div_l; [exact Hpos | lra]).
  assert (H2 : (3 / - x <= 30)%Q) by (apply Qle_shift_div_r; [exact Hpos | lra]).
  split.
  - change (-30) with (Qfloor (-30)); apply Qfloor_resp_le.
    rewrite E; change (inject_Z (-30)) with (- (30))%Q; lra.
  - pose proof (Qfloor_le (3 / x)) as Hf.
    rewrite E in Hf at 2.
    assert (Hlt : (inject_Z (Qfloor (3 / x)) < inject_Z 0)%Q)
      by (change (inject_Z 0) with 0%Q; lra).
    rewrite <- Zlt_Qlt in Hlt; lia.
Qed.

(** The count in terms of the exact quotient: the floor of
    [3 / (Timeout + 0.1)], replaced by 1 when it is 0, for every timeout
    whose binary64 sum with 0.1 is a finite number at least 1/10 away from
    zero. *)
Lemma retries_nr_quotient (timeout : float) (x : Q) :
  PyFloat.value (timeout + PyFloat.tenth)%float = Some x ->
  (1 # 10 <= x \/ x <= - (1 # 10))%Q ->
  retries_nr timeout = Ok (zero_to_one (Qfloor (3 / x))).
Proof.
  intros Hv Hx.
  unfold retries_nr, PyFloat.floordiv.
  unfold PyFloat.value in Hv.
  destruct (Prim2SF (timeout + PyFloat.tenth)) as [sg | sg | | sg m e];
    try discriminate.
  - injection Hv as <-; exfalso; destruct Hx as [Hx | Hx]; revert Hx;
      vm_compute; congruence.
  - injection Hv as Hv; rewrite Hv.
    change (inject_Z 3) with 3%Q.
    assert (Hq : -30 <= Qfloor (3 / x) <= 30).
    { destruct Hx as [Hx | Hx];
        [pose proof (quotient_bounds x Hx) |
         pose proof (quotient_bounds_negative x Hx)]; lia. }
    pose proof (quotient_ok_small _ Hq) as Hok; unfold quotient_ok in Hok.
    destruct (PyFloat.int _) as [n | err]; [| discriminate].
    apply Z.eqb_eq in Hok; rewrite Hok; reflexivity.
Qed.

(** The sum is the binary64 one: with a timeout of 0.2 the divisor is
    just above 0.3 and the count is 9; with a timeout of 0 the divisor is
    the binary64 number just above 0.1 and the count is 29. *)
Example retries_nr_fifth : retries_nr 0x1.999999999999ap-3%float = Ok 9.
Proof. vm_compute; reflexivity. Qed.

Example retries_nr_zero : retries_nr 0%float = Ok 29.
Proof. vm_compute; reflexivity. Qed.

(** Below zero: a negative timeout gives a negative count (no attempt is
    ever made), and the timeout -0.1 a division by zero. *)
Example retries_nr_negative : retries_nr (-1)%float = Ok (-4).
Proof. vm_compute; reflexivity. Qed.

Example retries_nr_zero_divisor :
  retries_nr (- PyFloat.tenth)%float =
  Raise (ZeroDivisionError "float floor division by zero").
Proof. vm_compute; reflexivity. Qed.

Context {W : Type} {dev : Device W}.

(** [__init__] stores the count. *)
Lemma init_retries (p : Props) (w : W) (s : St W) :
  __init__ p w = Ok s -> retries_nr (Timeout p) = Ok (_retries_nr (ctrl s)).
Proof.
  unfold __init__; destruct (retries_nr _) as [n |]; [| discriminate].
  destruct (ipap_connect _ _ _) as [[[] | e] w']; [| discriminate].
  intro E; injection E as <-; reflexivity.
Qed.

(** [__init__] once the count is known: the connection is made and the
    fields are set. *)
Lemma init_run (p : Props) (w : W) (n : Z) :
  retries_nr (Timeout p) = Ok n ->
  __init__ p w =
    match ipap_connect (IcepapController p) (Timeout p) w with
    | (Ok _, w') => Ok (booted p n w')
    | (Raise e, _) => Raise e
    end.
Proof.
  intro E; unfold __init__; rewrite E.
  destruct (ipap_connect _ _ _) as [[[] | e] w']; reflexivity.
Qed.

(** C3, as the code has it.  The retry count [__init__] stores in
    [_retries_nr] is the floor of [3 / (Timeout + 0.1)], replaced by 1 when
    it is 0, the sum being the binary64 sum the code computes and the
    quotient and floor being exact.  For every timeout whose sum with 0.1
    is a finite number not below 1/10, as the sums of the non-negative
    timeouts evaluated in this section are, that is
    [max(1, floor(3 / (Timeout + 0.1)))]: [__init__] returns the freshly
    initialised controller with that count when the connection succeeds.
    It is 5 for a timeout of 0.5 and 1 for a timeout of 3.0.  For a timeout
    whose sum with 0.1 is not above -1/10 the count stored is the floor
    itself, a negative number, where the formula gives 1; and when the sum
    is zero [__init__] raises [ZeroDivisionError]. *)
Theorem retries_nr_formula :
  (forall (p : Props) (w : W) (x : Q),
     PyFloat.value (Timeout p + PyFloat.tenth)%float = Some x ->
     (1 # 10 <= x)%Q ->
     __init__ p w =
       match ipap_connect (IcepapController p) (Timeout p) w with
       | (Ok _, w') => Ok (booted p (Z.max 1 (Qfloor (3 / x))) w')
       | (Raise e, _) => Raise e
       end) /\
  (forall (p : Props) (w : W) (s : St W),
     Timeout p = 0.5%float -> __init__ p w = Ok s -> _retries_nr (ctrl s) = 5) /\
  (forall (p : Props) (w : W) (s : St W),
     Timeout p = 3%float -> __init__ p w = Ok s -> _retries_nr (ctrl s) = 1) /\
  (forall (p : Props) (w : W) (x : Q),
     PyFloat.value (Timeout p + PyFloat.tenth)%float = Some x ->
     (x <= - (1 # 10))%Q ->
     Qfloor (3 / x) < 0 /\
     __init__ p w =
       match ipap_connect (IcepapController p) (Timeout p) w with
       | (Ok _, w') => Ok (booted p (Qfloor (3 / x)) w')
       | (Raise e, _) => Raise e
       end) /\
  (forall (p : Props) (w : W),
     PrimFloat.eqb (Timeout p + PyFloat.tenth) zero = true ->
     __init__ p w = Raise (ZeroDivisionError "float floor division by zero")).
Proof.
  split; [| split; [| split; [| split]]].
  - intros p w x Hv Hx.
    rewrite (init_run p w (Z.max 1 (Qfloor (3 / x)))); [reflexivity |].
    rewrite (retries_nr_quotient _ x Hv (or_introl Hx)).
    pose proof (quotient_bounds x Hx) as Hq.
    unfold zero_to_one; destruct (Z.eqb_spec (Qfloor (3 / x)) 0) as [-> | Hne];
      [reflexivity | f_equal; lia].
  - intros p w s Ht Hinit; apply init_retries in Hinit.
    assert (E : retries_nr 0.5%float = Ok 5) by (vm_compute; reflexivity).
    rewrite Ht, E in Hinit; injection Hinit as <-; reflexivity.
  - intros p w s Ht Hinit; apply init_retries in Hinit.
    assert (E : retries_nr 3%float = Ok 1) by (vm_compute; reflexivity).
    rewrite Ht, E in Hinit; injection Hinit as <-; reflexivity.
  - intros p w x Hv Hx.
    pose proof (quotient_bounds_negative x Hx) as Hq.
    split; [lia |].
    rewrite (init_run p w (Qfloor (3 / x))); [reflexivity |].
    rewrite (retries_nr_quotient _ x Hv (or_intror Hx)).
    unfold zero_to_one; destruct (Z.eqb_spec (Qfloor (3 / x)) 0) as [E | Hne];
      [lia | reflexivity].
  - intros p w Hz.
    unfold __init__, retries_nr, PyFloat.floordiv.
    rewrite eqb_spec in Hz.
    change (Prim2SF zero) with (S754_zero false) in Hz.
    destruct (Prim2SF (Timeout p + PyFloat.tenth)) as [sg | sg | | sg m e];
      try reflexivity; try (destruct sg); discriminate Hz.
Qed.

End RetryCount.

(** ** Runs on the bench *)

Section Bench.

Example init_on_bench :
  __init__ (dev := bench 1000 0 1) props_master tt =
  Ok (booted props_master 5 tt).
Proof. vm_compute; reflexivity. Qed.

Lemma bench_outputs spu offset sign :
  outputs_never_fail (dev := bench spu offset sign).
Proof.
  split; [| split]; intros; simpl; [reflexivity | reflexivity |].
  eexists; reflexivity.
Qed.

Lemma panel_outputs : outputs_never_fail (dev := panel None).
Proof.
  split; [| split]; intros; simpl; [reflexivity | reflexivity |].
  eexists; reflexivity.
Qed.

(** C2: with the start-trigger-only flag set, a position-domain request
    of 20478 points does not fail: the one-entry table is uploaded. *)
Lemma ceiling_skipped_by_start_trigger_only :
  let s := snd (setStartTriggerOnly 1 true (booted props_master 5 tt)) in
  let out := SynchOne (dev := bench 1000 0 1) 1 [g_over] s in
  Initial g_over = Some 0%float /\
  MAX_ECAM_VALUES < Repeats g_over /\
  _start_trigger_only (ctrl s) = true /\
  fst out = Ok tt /\
  fst out <> Raise (RuntimeError msg_capacity) /\
  log (snd out) =
    [Connect "ipap"; TaurusAxis (Some "m1"); TaurusReadAttributes (Some "m1");
     SetEcamTable (Some 1) [0%float]].
Proof.
  vm_compute; repeat split; try reflexivity; discriminate.
Qed.

Lemma SynchOne_capacity_witness :
  SynchOne (dev := bench 1000 0 1) 1 [g_over] (booted props_master 5 tt) =
  (Raise (RuntimeError msg_capacity),
   bound props_master 5 (1000, 0, 1)%float).
Proof.
  refine (proj1 (proj1 (SynchOne_capacity (dev := bench 1000 0 1) 1 g_over []
                          (booted props_master 5 tt)
                          (bound props_master 5 (1000, 0, 1)%float) 0 10
                          eq_refl eq_refl eq_refl (or_introl eq_refl)
                          eq_refl eq_refl)
                   10000 (PyFloat.of_Z 20478) eq_refl eq_refl)
                eq_refl).
Defined.

(** C2: a step that is not finite stops the call before the ceiling is
    looked at.  With 1e308 steps per unit and a span of 10 the step is
    infinite, and a request of 20478 points raises [OverflowError]. *)
Example infinite_step_before_ceiling :
  SynchOne (dev := bench 0x1.1ccf385ebc8ap+1023 0 1) 1 [g_over]
    (booted props_master 5 tt) =
  (Raise (OverflowError "cannot convert float infinity to integer"),
   bound props_master 5 (0x1.1ccf385ebc8ap+1023, 0, 1)%float).
Proof. vm_compute; reflexivity. Qed.

(** The scenario of a request of 5 points from 0 over a total of 10
    units per point at 1000 steps per unit: the step is 10000 motor
    steps, and no operation rounds. *)
Example SynchOne_five_points :
  SynchOne (dev := bench 1000 0 1) 1 [g_five] (booted props_master 5 tt) =
  (Ok tt,
   {| ctrl := ctrl (bound props_master 5 (1000, 0, 1)%float);
      world := tt;
      log := log (bound props_master 5 (1000, 0, 1)%float) ++
             [SetEcamTable (Some 1) [0; 10000; 20000; 30000; 40000]%float] |}).
Proof. vm_compute; reflexivity. Qed.




(** C5: three points from 2^60 with a step of 1, where binary64 numbers
    are 256 apart.  The step is positive and is absorbed by the rounding
    of [end]: the three entries are equal. *)
Example table_repeats_at_two60 :
  let s2 := bound props_master 5 (1, 0, 1)%float in
  let delta := steps_delta (ctrl s2) 1 in
  let table := [two60; two60; two60] in
  SynchOne (dev := bench 1 0 1) 1 [g_wide two60] (booted props_master 5 tt) =
    (Ok tt, {| ctrl := ctrl s2; world := tt;
               log := log s2 ++ [SetEcamTable (Some 1) table] |}) /\
  PrimFloat.ltb zero delta = true /\
  ~ increasing table.
Proof.
  split; [vm_compute; reflexivity |].
  split; [vm_compute; reflexivity |].
  intro H; specialize (H 0%nat); simpl in H.
  assert (L : (1 < 3)%nat) by lia.
  specialize (H L); vm_compute in H; discriminate H.
Qed.


(** C6: in auxiliary-output mode with the motor [m2] bound and [m1] the
    default, a time-domain request of one point raises the cable error:
    the call does not return normally and binds nothing (the log is the
    one it started with). *)
Lemma time_domain_cable_mismatch :
  let s := snd (setMasterMotor (dev := bench 1000 0 1) 1 "m2"
                  (booted props_aux 5 tt)) in
  let out := SynchOne (dev := bench 1000 0 1) 1 [g_time 1] s in
  Initial (g_time 1) = None /\
  Repeats (g_time 1) <= 1 /\
  out = (Raise (RuntimeError msg_cable),
         with_ctrl (set_time_mode true (ctrl s)) s) /\
  fst out <> Ok tt /\
  log (snd out) = log s.
Proof.
  vm_compute; repeat split; try reflexivity; discriminate.
Qed.

Lemma SynchOne_time_domain_witness :
  SynchOne (dev := bench 1000 0 1) 1 [g_time 1] (booted props_master 5 tt) =
  (Ok tt,
   with_ctrl (set_time_mode true
                (ctrl (bound props_master 5 (1000, 0, 1)%float)))
     (bound props_master 5 (1000, 0, 1)%float)).
Proof.
  destruct (SynchOne_time_domain (dev := bench 1000 0 1) 1 (g_time 1) []
              (booted props_master 5 tt) eq_refl) as [_ H].
  destruct (H ltac:(discriminate)) as (_ & _ & _ & H').
  destruct (H' (or_introl eq_refl)) as (-> & _).
  reflexivity.
Defined.

(** C8: a pulse on the master output of a controller in time mode, on the
    panel that keeps its registers: after the pulse the registers hold the
    write of HIGH and, above it, the write of LOW, and the level read back
    and printed is "high" after the first drive and "low" after the
    second. *)
Lemma StartOne_pulse_witness :
  let s := snd (SynchOne (dev := panel None) 1 [g_time 1]
                  (booted props_master 5 [])) in
  StartOne (dev := panel None) 1 s =
    (Ok tt,
     {| ctrl := ctrl s;
        world := [("syncaux", ("low", "normal"));
                  ("syncaux", ("high", "normal"))];
        log := log s ++
               [IpapGetItem (Some 1);
                SetAttr (Some 1) "syncaux" ("high", "normal");
                ReadSyncaux (Some 1); Print "high";
                Sleep (1 # 100);
                IpapGetItem (Some 1);
                SetAttr (Some 1) "syncaux" ("low", "normal");
                ReadSyncaux (Some 1); Print "low"] |}).
Proof.
  intro s.
  exact (proj1 (proj2 (StartOne_pulse (dev := panel None) 1 s)
                  eq_refl panel_outputs)).
Defined.

(** C10: before any motor is bound, in auxiliary-output mode, a
    time-domain request of two points is refused for asking several
    triggers by time, not for the cable. *)
Lemma unbound_aux_multiple_by_time :
  let s := booted props_aux 5 tt in
  let out := SynchOne (dev := bench 1000 0 1) 1 [g_time 2] s in
  _use_master_out (ctrl s) = false /\
  _last_motor_name (ctrl s) = None /\
  out = (Raise (ValueError msg_multiple_time), s) /\
  fst out <> Raise (RuntimeError msg_cable).
Proof.
  vm_compute; repeat split; try reflexivity; discriminate.
Qed.

Lemma SynchOne_unbound_aux_witness :
  SynchOne (dev := bench 1000 0 1) 1 [g_five] (booted props_aux 5 tt) =
    (Raise (RuntimeError msg_cable), booted props_aux 5 tt) /\
  SynchOne (dev := bench 1000 0 1) 1 [g_time 1] (booted props_aux 5 tt) =
    (Raise (RuntimeError msg_cable),
     with_ctrl (set_time_mode true (fresh props_aux 5))
       (booted props_aux 5 tt)).
Proof.
  split.
  - exact (proj1 (SynchOne_unbound_aux (dev := bench 1000 0 1) 1 g_five []
                    (booted props_aux 5 tt) eq_refl eq_refl
                    (fun H => ltac:(discriminate H)))).
  - exact (proj1 (SynchOne_unbound_aux (dev := bench 1000 0 1) 1 (g_time 1) []
                    (booted props_aux 5 tt) eq_refl eq_refl
                    (fun _ => ltac:(discriminate)))).
Defined.

(** C3: a controller given a timeout of 0.5 is initialised with a count
    of 5. *)
Lemma retries_nr_formula_witness :
  __init__ (dev := bench 1000 0 1) props_master tt =
  Ok (booted props_master
        (Z.max 1 (Qfloor (3 / PyFloat.SF2Q false 5404319552844595 (-53)))) tt).
Proof.
  apply (proj1 (retries_nr_formula (dev := bench 1000 0 1)) props_master tt).
  - reflexivity.
  - vm_compute; discriminate.
Defined.

(** C3: a controller given a timeout of -1.0.  The sum with 0.1 is the
    binary64 number next to -0.9, the quotient is about -3.33 and its
    floor is -4: the count stored is -4, where the formula gives
    [max(1, -4) = 1].  With that count a poll makes no read at all and
    reports ALARM. *)
Lemma negative_timeout_not_clamped :
  let x := PyFloat.SF2Q true 8106479329266893 (-53) in
  let s := booted props_negative (-4) tt in
  PyFloat.value (Timeout props_negative + PyFloat.tenth)%float = Some x /\
  Z.max 1 (Qfloor (3 / x)) = 1 /\
  __init__ (dev := bench 1000 0 1) props_negative tt = Ok s /\
  _retries_nr (ctrl s) = -4 /\
  _retries_nr (ctrl s) <> Z.max 1 (Qfloor (3 / x)) /\
  StateOne (dev := bench 1000 0 1) 1 s =
    (Ok (Alarm, "The motor is power off or not possible to read State"), s).
Proof.
  vm_compute; repeat split; try reflexivity; discriminate.
Qed.

(** C7 on devices that fail: three timeouts, then a reading; and a
    device that never answers. *)
Example StateOne_after_three_timeouts :
  StateOne (dev := flaky) 1 (booted props_master 5 3%nat) =
  (Ok (Moving, "Moving"),
   {| ctrl := fresh props_master 5; world := 0%nat;
      log := [Connect "ipap"; ReadState None; ReadState None;
              ReadState None; ReadState None] |}).
Proof. reflexivity. Qed.

Example StateOne_on_unreachable :
  StateOne (dev := unreachable) 1 (booted props_master 5 tt) =
  (Ok (Alarm, "The motor is power off or not possible to read State"),
   {| ctrl := fresh props_master 5; world := tt;
      log := Connect "ipap" :: repeat (ReadState None) 5 |}).
Proof. reflexivity. Qed.

End Bench.

(** * Further properties *)

(** ** Driving the output *)

Section Output.

Context {W : Type} {dev : Device W}.

(** X3.  On any device, [_set_out out] first asks for the handle of the
    axis, and writes nothing when the device refuses it.  It then writes
    [(out, "normal")] to the output registers one after the other --
    [syncaux] alone in master-output mode, the auxiliary channels in the
    order of the list otherwise -- and stops at the first write the device
    refuses: the registers before it have been written, the ones after it
    are not, and the exception of the device is the outcome.  When every
    write is accepted it reads [syncaux] back and prints it, and raises
    what that read raises.  The world is the one the device left after the
    last call made, and the instance fields are unchanged. *)
Theorem set_out_writes_in_order (out : string) (s : St W) :
  let c := ctrl s in
  let ax := _motor_axis c in
  let value := (out, "normal") in
  let write := fun info => SetAttr ax info value in
  (forall e w1,
     ipap_getitem ax (world s) = (Raise e, w1) ->
     _set_out out s =
       (Raise e,
        {| ctrl := c; world := w1; log := log s ++ [IpapGetItem ax] |})) /\
  (forall w1 pre info post e w2,
     ipap_getitem ax (world s) = (Ok tt, w1) ->
     channels c = pre ++ info :: post ->
     writes_succeed ax value pre w1 ->
     axis_setattr ax info value (written ax value pre w1) = (Raise e, w2) ->
     _set_out out s =
       (Raise e,
        {| ctrl := c; world := w2;
           log := log s ++ IpapGetItem ax :: map write (pre ++ [info]) |})) /\
  (forall w1,
     ipap_getitem ax (world s) = (Ok tt, w1) ->
     writes_succeed ax value (channels c) w1 ->
     _set_out out s =
       match axis_syncaux ax (written ax value (channels c) w1) with
       | (Ok text, w3) =>
           (Ok tt,
            {| ctrl := c; world := w3;
               log := log s ++ IpapGetItem ax :: map write (channels c) ++
                      [ReadSyncaux ax; Print text] |})
       | (Raise e, w3) =>
           (Raise e,
            {| ctrl := c; world := w3;
               log := log s ++ IpapGetItem ax :: map write (channels c) ++
                      [ReadSyncaux ax] |})
       end).
Proof.
  intros c ax value write; split; [| split].
  - intros e w1 E; rewrite set_out_run; fold c; fold ax; rewrite E.
    reflexivity.
  - intros w1 pre info post e w2 E Hch Hpre Hw.
    rewrite set_out_run; fold c; fold ax; fold value; rewrite E, Hch.
    rewrite (for_each_refused ax value pre info post e w2) by assumption.
    cbn [world ctrl log]; rewrite <- app_assoc; reflexivity.
  - intros w1 E Hall.
    rewrite set_out_run; fold c; fold ax; fold value; rewrite E.
    rewrite for_each_accepted by exact Hall.
    cbn [world ctrl log].
    destruct (axis_syncaux ax _) as [[text | e] w3];
      rewrite <- !app_assoc; reflexivity.
Qed.

(** X1.  On a device that accepts the register accesses, [PreStartOne]
    returns [True] having driven the output LOW in time mode and to ECAM
    (armed) in position mode: the world it leaves is the one in which the
    device has served the write of that level to every output register,
    the calls issued are those of that one drive, the register writes
    among them are exactly the writes of that level, there is no dwell, and
    the instance fields are unchanged. *)
Theorem PreStartOne_arms (axis : Z) (s : St W) :
  outputs_never_fail ->
  let c := ctrl s in
  let out := if _time_mode c then LOW else ECAM in
  PreStartOne axis s =
    (Ok true,
     {| ctrl := c; world := driven c out (world s);
        log := log s ++ set_out_events c out (world s) |}) /\
  filter is_output (set_out_events c out (world s)) = drive c out.
Proof.
  intros Hdev c out; split; [| apply filter_set_out_events].
  unfold PreStartOne, bind at 1, get at 1; cbv beta iota.
  fold c; unfold bind.
  replace (if _time_mode c then _set_out LOW else _set_out ECAM)
    with (_set_out (W := W) out) by (unfold out; destruct (_time_mode c); reflexivity).
  rewrite (set_out_accepted out s Hdev); reflexivity.
Qed.

(** X2.  On a device that accepts the register accesses, [AbortOne]
    drives the output LOW whatever the mode and the state: the world it
    leaves is the one in which the device has served the write of LOW to
    every output register, the calls issued are those of that one drive,
    and the instance fields are unchanged. *)
Theorem AbortOne_drives_low (axis : Z) (s : St W) :
  outputs_never_fail ->
  let c := ctrl s in
  AbortOne axis s =
    (Ok tt,
     {| ctrl := c; world := driven c LOW (world s);
        log := log s ++ set_out_events c LOW (world s) |}) /\
  filter is_output (set_out_events c LOW (world s)) = drive c LOW.
Proof.
  intros Hdev c; split; [| apply filter_set_out_events].
  unfold AbortOne; exact (set_out_accepted LOW s Hdev).
Qed.

End Output.

(** ** What the operations leave alone *)

Section Fields.

Context {W : Type} {dev : Device W}.

Lemma keeps_field_of_ctrl X A (f : Ctrl -> X) (m : M W A) :
  keeps_ctrl m -> keeps_field f m.
Proof. intros H s; rewrite (H s); reflexivity. Qed.

Lemma keeps_field_bind X A B (f : Ctrl -> X) (m : M W A) (k : A -> M W B) :
  keeps_field f m -> (forall a, keeps_field f (k a)) ->
  keeps_field f (bind m k).
Proof.
  intros Hm Hk s; unfold bind.
  specialize (Hm s); destruct (m s) as [[a | e] s']; simpl in *.
  - rewrite Hk; exact Hm.
  - exact Hm.
Qed.

Lemma keeps_field_modify X (f : Ctrl -> X) (g : Ctrl -> Ctrl) :
  (forall c, f (g c) = f c) -> keeps_field f (@modify W g).
Proof. intros H s; simpl; apply H. Qed.

Lemma keeps_field_configureMotor X (f : Ctrl -> X) name :
  blind_to_binding f -> keeps_field f (_configureMotor name).
Proof.
  intros (Hn & Ha & Hv) s; rewrite _configureMotor_run.
  destruct (taurus_axis _ _) as [[a | e] w1]; simpl; [| apply Hn].
  destruct (taurus_read_attributes _ _) as [[v | e] w2]; simpl.
  - rewrite Hv, Ha; apply Hn.
  - rewrite Ha; apply Hn.
Qed.

Lemma keeps_upload table : keeps_ctrl (upload table).
Proof. unfold upload; frame. Qed.

Lemma keeps_check_cable name : keeps_ctrl (check_cable (W := W) name).
Proof. unfold check_cable; frame. Qed.

End Fields.

Ltac fields :=
  repeat first
    [ progress intros
    | apply keeps_field_configureMotor; assumption
    | apply keeps_field_bind
    | apply keeps_field_modify; solve [auto]
    | apply keeps_field_of_ctrl;
      solve [frame | apply keeps_upload | apply keeps_check_cable]
    | match goal with |- keeps_field _ (if ?b then _ else _) => destruct b end
    | match goal with
      | |- keeps_field _ (match ?x with _ => _ end) => destruct x
      end ].

Section Invariants.

Context {W : Type} {dev : Device W}.

Lemma keeps_field_SynchOne X (f : Ctrl -> X) axis configuration :
  blind_to_binding f -> (forall b c, f (set_time_mode b c) = f c) ->
  keeps_field f (SynchOne axis configuration).
Proof.
  intros Hb Ht; unfold SynchOne.
  destruct configuration as [| g rest]; [fields |].
  destruct (Initial g); fields.
Qed.

Lemma blind_construction_fields : blind_to_binding construction_fields.
Proof. repeat split; intros; destruct v as [[? ?] ?]; reflexivity. Qed.

Lemma blind_start_trigger_only : blind_to_binding _start_trigger_only.
Proof. repeat split; intros; destruct v as [[? ?] ?]; reflexivity. Qed.

Lemma blind_time_mode : blind_to_binding _time_mode.
Proof. repeat split; intros; destruct v as [[? ?] ?]; reflexivity. Qed.

(** X12.  The fields [__init__] derives from the controller properties
    -- the properties themselves, the master-output flag, the list of
    auxiliary channels and the retry count -- are never modified
    afterwards: [SynchOne], [setMasterMotor] and [setStartTriggerOnly]
    leave them as they are, whatever the outcome.  The start-trigger-only
    flag is changed by its setter only: [SynchOne] and [setMasterMotor]
    keep it. *)
Theorem construction_fields_fixed (axis : Z) (configuration : list SynchGroup)
    (m : string) (b : bool) (s : St W) :
  construction_fields (ctrl (snd (SynchOne axis configuration s))) =
    construction_fields (ctrl s) /\
  construction_fields (ctrl (snd (setMasterMotor axis m s))) =
    construction_fields (ctrl s) /\
  construction_fields (ctrl (snd (setStartTriggerOnly axis b s))) =
    construction_fields (ctrl s) /\
  _start_trigger_only (ctrl (snd (SynchOne axis configuration s))) =
    _start_trigger_only (ctrl s) /\
  _start_trigger_only (ctrl (snd (setMasterMotor axis m s))) =
    _start_trigger_only (ctrl s).
Proof.
  split; [| split; [| split; [| split]]].
  - apply keeps_field_SynchOne; [apply blind_construction_fields | reflexivity].
  - apply keeps_field_configureMotor, blind_construction_fields.
  - reflexivity.
  - apply keeps_field_SynchOne; [apply blind_start_trigger_only | reflexivity].
  - apply keeps_field_configureMotor, blind_start_trigger_only.
Qed.

(** The time-mode flag after [SynchOne], whatever its outcome. *)
Lemma SynchOne_mode_run (axis : Z) (g : SynchGroup) (rest : list SynchGroup)
    (s : St W) :
  _time_mode (ctrl (snd (SynchOne axis (g :: rest) s))) =
    match Initial g with
    | Some _ => false
    | None => if 1 <? Repeats g then _time_mode (ctrl s) else true
    end.
Proof.
  unfold SynchOne; destruct (Initial g) as [initial |].
  - unfold bind at 1.
    change (modify (set_time_mode false) s)
      with (Ok tt, with_ctrl (set_time_mode false (ctrl s)) s).
    cbv beta iota.
    match goal with
    | |- _time_mode (ctrl (snd (?m ?st))) = _ =>
        assert (K : keeps_field _time_mode m)
          by (pose proof blind_time_mode; fields);
        rewrite (K st)
    end.
    reflexivity.
  - unfold bind at 1; destruct (1 <? Repeats g); [reflexivity |].
    change (modify (set_time_mode true) s)
      with (Ok tt, with_ctrl (set_time_mode true (ctrl s)) s).
    cbv beta iota.
    match goal with
    | |- _time_mode (ctrl (snd (?m ?st))) = _ =>
        assert (K : keeps_field _time_mode m)
          by (pose proof blind_time_mode; fields);
        rewrite (K st)
    end.
    reflexivity.
Qed.

(** X11.  [SynchOne] switches the mode before anything can fail except
    the refusal of several triggers by time: whatever the outcome of the
    call -- cable error, failed resolution, missing span, capacity error,
    failed upload or success -- the time-mode flag is cleared by a
    position-domain request and set by a time-domain request of at most
    one point; it keeps its value only when a time-domain request asks for
    more than one point. *)
Theorem SynchOne_sets_mode (axis : Z) (g : SynchGroup) (rest : list SynchGroup)
    (s : St W) :
  _time_mode (ctrl (snd (SynchOne axis (g :: rest) s))) =
    match Initial g with
    | Some _ => false
    | None => if 1 <? Repeats g then _time_mode (ctrl s) else true
    end.
Proof.
  unfold SynchOne; destruct (Initial g) as [initial |].
  - unfold bind at 1.
    change (modify (set_time_mode false) s)
      with (Ok tt, with_ctrl (set_time_mode false (ctrl s)) s).
    cbv beta iota.
    match goal with
    | |- _time_mode (ctrl (snd (?m ?st))) = _ =>
        assert (K : keeps_field _time_mode m)
          by (pose proof blind_time_mode; fields);
        rewrite (K st)
    end.
    reflexivity.
  - unfold bind at 1; destruct (1 <? Repeats g); [reflexivity |].
    change (modify (set_time_mode true) s)
      with (Ok tt, with_ctrl (set_time_mode true (ctrl s)) s).
    cbv beta iota.
    match goal with
    | |- _time_mode (ctrl (snd (?m ?st))) = _ =>
        assert (K : keeps_field _time_mode m)
          by (pose proof blind_time_mode; fields);
        rewrite (K st)
    end.
    reflexivity.
Qed.

(** X4.  When [_configureMotor] returns normally, the controller is
    bound to the motor asked for, or to the default motor when none was
    given: the name is that motor's, the axis is the one the registry gave
    for it, and the three calibration constants are the ones the registry
    gave for it in this call -- they are read again even when that motor
    was bound already.  The two registry look-ups are the only calls
    issued. *)
Theorem configureMotor_binds (name : option string) (s : St W) :
  fst (_configureMotor name s) = Ok tt ->
  let n := resolved_name name (ctrl s) in
  let s' := snd (_configureMotor name s) in
  exists a v w1,
    taurus_axis (Some n) (world s) = (Ok a, w1) /\
    taurus_read_attributes (Some n) w1 = (Ok v, world s') /\
    _last_motor_name (ctrl s') = Some n /\
    _motor_axis (ctrl s') = Some a /\
    calibration (ctrl s') = v /\
    log s' = log s ++ [TaurusAxis (Some n); TaurusReadAttributes (Some n)].
Proof.
  intros Hok n s'; subst s'; revert Hok.
  rewrite _configureMotor_run; fold n.
  destruct (taurus_axis (Some n) (world s)) as [[a | e] w1]; simpl;
    [| discriminate].
  destruct (taurus_read_attributes (Some n) w1) as [[v | e] w2] eqn:E; simpl;
    [intros _ | discriminate].
  destruct v as [[spu offset] sign].
  exists a, (spu, offset, sign), w1; repeat split; assumption.
Qed.

(** X5.  When [_configureMotor] raises, the binding is left half done:
    the name is already the new one (and [getMasterMotor] reports it),
    while the calibration constants are still those of the motor bound
    before; the axis is the old one when the axis look-up raised and the
    new one when the look-up succeeded and the read of the calibration
    raised. *)
Theorem configureMotor_failure (axis : Z) (name : option string) (s : St W)
    (e : exn) :
  fst (_configureMotor name s) = Raise e ->
  let n := resolved_name name (ctrl s) in
  let s' := snd (_configureMotor name s) in
  _last_motor_name (ctrl s') = Some n /\
  getMasterMotor axis s' = (Ok (Some n), s') /\
  calibration (ctrl s') = calibration (ctrl s) /\
  ((exists w1, taurus_axis (Some n) (world s) = (Raise e, w1)) /\
   _motor_axis (ctrl s') = _motor_axis (ctrl s) \/
   (exists a w1, taurus_axis (Some n) (world s) = (Ok a, w1) /\
                 _motor_axis (ctrl s') = Some a)).
Proof.
  intros Hraise n s'; subst s'; revert Hraise.
  unfold getMasterMotor, bind, get, ret.
  rewrite _configureMotor_run; fold n.
  destruct (taurus_axis (Some n) (world s)) as [[a | e'] w1]; simpl.
  - destruct (taurus_read_attributes (Some n) w1) as [[v | e'] w2]; simpl;
      [discriminate | intros _].
    repeat split; right; exists a, w1; split; reflexivity.
  - intro E; injection E as ->.
    repeat split; left; split; [exists w1 |]; reflexivity.
Qed.

End Invariants.

(** ** The upload *)

Section Upload.

Context {W : Type} {dev : Device W}.

Lemma retried_budget A (op : W -> result A * W) n w r w' k :
  retried op n w r w' k -> (k <= n)%nat.
Proof. induction 1; lia. Qed.

Lemma retried_exhaustion A (op : W -> result A * W) n w r w' k :
  retried op n w r w' k -> r = None -> k = n.
Proof.
  induction 1 as [| | n w e w' r w'' k _ _ IH]; intro E.
  - reflexivity.
  - discriminate.
  - rewrite (IH E); reflexivity.
Qed.

Lemma retry_retried A ev (op : W -> result A * W) n : forall s : St W,
  exists r w' k,
    retried op n (world s) r w' k /\
    retry n (call ev op) s =
      (Ok r, {| ctrl := ctrl s; world := w'; log := log s ++ repeat ev k |}).
Proof.
  induction n as [| n IH]; intro s.
  - exists None, (world s), 0%nat; split; [constructor |].
    simpl; unfold ret; destruct s; simpl; rewrite app_nil_r; reflexivity.
  - simpl; unfold call at 1.
    destruct (op (world s)) as [[a | e] w1] eqn:E.
    + exists (Some a), w1, 1%nat; split; [now constructor | reflexivity].
    + destruct (IH {| ctrl := ctrl s; world := w1; log := log s ++ [ev] |})
        as (r & w' & k & Hp & Hr).
      exists r, w', (S k); split; [econstructor; eassumption |].
      rewrite Hr; simpl; rewrite <- app_assoc; reflexivity.
Qed.

(** X10.  The upload of a trigger table sends that same table at most
    [_retries_nr] times and stops at the first attempt the device accepts.
    No exception of the device gets through: the upload returns normally
    when an attempt succeeded, and raises [RuntimeError] ("Can not send
    trigger table.") when every attempt raised -- after exactly
    [_retries_nr] attempts, hence without any attempt when the retry count
    is not positive.  The instance fields are unchanged. *)
Theorem upload_outcome (table : list float) (s : St W) :
  let ax := _motor_axis (ctrl s) in
  let N := Z.to_nat (_retries_nr (ctrl s)) in
  exists (r : option unit) (w' : W) (k : nat),
    retried (axis_set_ecam_table ax table) N (world s) r w' k /\
    (k <= N)%nat /\
    (r = None -> k = N) /\
    upload table s =
      (match r with
       | Some _ => Ok tt
       | None => Raise (RuntimeError msg_upload)
       end,
       {| ctrl := ctrl s; world := w';
          log := log s ++ repeat (SetEcamTable ax table) k |}).
Proof.
  intros ax N.
  destruct (retry_retried unit (SetEcamTable ax table)
              (axis_set_ecam_table ax table) N s)
    as (r & w' & k & Hp & Hr).
  exists r, w', k; split; [exact Hp |].
  split; [exact (retried_budget _ _ _ _ _ _ _ Hp) |].
  split; [exact (retried_exhaustion _ _ _ _ _ _ _ Hp) |].
  unfold upload, bind, get; fold ax; fold N; rewrite Hr.
  destruct r as [[] |]; reflexivity.
Qed.

End Upload.

(** ** Edge cases of a position-domain request *)

Section Edges.

Context {W : Type} {dev : Device W}.

(** The position-domain branch up to the binding of the motor. *)
Lemma SynchOne_position_bound (axis : Z) (g : SynchGroup)
    (rest : list SynchGroup) (s s2 : St W) (initial : float) :
  Initial g = Some initial ->
  (_use_master_out (ctrl s) = true \/
   _last_motor_name (ctrl s) = Some (DefaultMotor (props (ctrl s)))) ->
  _configureMotor (_last_motor_name (ctrl s))
    (with_ctrl (set_time_mode false (ctrl s)) s) = (Ok tt, s2) ->
  SynchOne axis (g :: rest) s =
    match Total g with
    | None => (Raise (KeyError "SynchParam.Total"), s2)
    | Some total =>
        if PrimFloat.eqb (_motor_sign (ctrl s2)) zero then
          (Raise (ZeroDivisionError "float division by zero"), s2)
        else SynchOne axis (g :: rest) s
    end.
Proof.
  intros Hi Hcable Hconf.
  destruct (Total g) as [total |] eqn:Ht.
  - destruct (PrimFloat.eqb (_motor_sign (ctrl s2)) zero) eqn:Hs;
      [| reflexivity].
    set (s1 := with_ctrl (set_time_mode false (ctrl s)) s) in *.
    unfold SynchOne; rewrite Hi, Ht.
    unfold bind at 1.
    change (modify (set_time_mode false) s) with (Ok tt, s1).
    cbv beta iota; unfold bind at 1, get at 1; cbv beta iota.
    change (_last_motor_name (ctrl s1)) with (_last_motor_name (ctrl s)).
    unfold bind at 1; rewrite (check_cable_pass _ s1 Hcable); cbv beta iota.
    unfold bind at 1; rewrite Hconf; cbv beta iota.
    unfold bind at 1, ret at 1; cbv beta iota.
    unfold bind at 1, get at 1; cbv beta iota.
    unfold bind at 1, lift at 1, PyFloat.truediv; rewrite Hs; reflexivity.
  - set (s1 := with_ctrl (set_time_mode false (ctrl s)) s) in *.
    unfold SynchOne; rewrite Hi, Ht.
    unfold bind at 1.
    change (modify (set_time_mode false) s) with (Ok tt, s1).
    cbv beta iota; unfold bind at 1, get at 1; cbv beta iota.
    change (_last_motor_name (ctrl s1)) with (_last_motor_name (ctrl s)).
    unfold bind at 1; rewrite (check_cable_pass _ s1 Hcable); cbv beta iota.
    unfold bind at 1; rewrite Hconf; reflexivity.
Qed.

(** X6.  A position-domain request whose group has no total span is
    refused with [KeyError], but only after the cable check and the binding
    of the motor: the mode has been switched to position, the motor bound
    and its calibration refreshed, and no table is built or uploaded. *)
Theorem SynchOne_missing_total (axis : Z) (g : SynchGroup)
    (rest : list SynchGroup) (s s2 : St W) (initial : float) :
  Initial g = Some initial ->
  Total g = None ->
  (_use_master_out (ctrl s) = true \/
   _last_motor_name (ctrl s) = Some (DefaultMotor (props (ctrl s)))) ->
  _configureMotor (_last_motor_name (ctrl s))
    (with_ctrl (set_time_mode false (ctrl s)) s) = (Ok tt, s2) ->
  SynchOne axis (g :: rest) s = (Raise (KeyError "SynchParam.Total"), s2) /\
  _time_mode (ctrl s2) = false /\
  filter is_upload (log s2) = filter is_upload (log s).
Proof.
  intros Hi Ht Hcable Hconf.
  rewrite (SynchOne_position_bound axis g rest s s2 initial Hi Hcable Hconf), Ht.
  split; [reflexivity |].
  pose proof (keeps_field_configureMotor _ _time_mode
                (_last_motor_name (ctrl s)) blind_time_mode
                (with_ctrl (set_time_mode false (ctrl s)) s)) as Hm.
  pose proof (quiet_configureMotor (_last_motor_name (ctrl s))
                (with_ctrl (set_time_mode false (ctrl s)) s)) as Hq.
  rewrite Hconf in Hm, Hq; split; [exact Hm | exact Hq].
Qed.

(** X7.  When the motor bound for a position-domain request has a sign of
    zero, the conversion to motor steps divides by zero: [SynchOne] raises
    [ZeroDivisionError] after the binding, and no table is built or
    uploaded. *)
Theorem SynchOne_zero_sign (axis : Z) (g : SynchGroup)
    (rest : list SynchGroup) (s s2 : St W) (initial total : float) :
  Initial g = Some initial ->
  Total g = Some total ->
  (_use_master_out (ctrl s) = true \/
   _last_motor_name (ctrl s) = Some (DefaultMotor (props (ctrl s)))) ->
  _configureMotor (_last_motor_name (ctrl s))
    (with_ctrl (set_time_mode false (ctrl s)) s) = (Ok tt, s2) ->
  PrimFloat.eqb (_motor_sign (ctrl s2)) zero = true ->
  SynchOne axis (g :: rest) s =
    (Raise (ZeroDivisionError "float division by zero"), s2) /\
  filter is_upload (log s2) = filter is_upload (log s).
Proof.
  intros Hi Ht Hcable Hconf Hsign.
  rewrite (SynchOne_position_bound axis g rest s s2 initial Hi Hcable Hconf), Ht.
  rewrite Hsign.
  split; [reflexivity |].
  pose proof (quiet_configureMotor (_last_motor_name (ctrl s))
                (with_ctrl (set_time_mode false (ctrl s)) s)) as Hq.
  rewrite Hconf in Hq; exact Hq.
Qed.

(** X8.  The count of a position-domain request is not checked from
    below.  With the start-trigger-only flag unset, the motor bound and a
    finite step, a request of zero points hands the empty table to the
    upload, and a request of a negative number of points raises the
    [ValueError] of [numpy.linspace] -- or the [OverflowError] of the
    conversion of the count to a float, when the count is beyond the range
    of binary64 -- after the binding and without any upload.  When the step
    is not finite the call raises before [numpy.linspace] is reached. *)
Theorem SynchOne_degenerate_count (axis : Z) (g : SynchGroup)
    (rest : list SynchGroup) (s s2 : St W) (initial total : float) :
  Initial g = Some initial ->
  Total g = Some total ->
  _start_trigger_only (ctrl s) = false ->
  Repeats g <= 0 ->
  (_use_master_out (ctrl s) = true \/
   _last_motor_name (ctrl s) = Some (DefaultMotor (props (ctrl s)))) ->
  _configureMotor (_last_motor_name (ctrl s))
    (with_ctrl (set_time_mode false (ctrl s)) s) = (Ok tt, s2) ->
  PrimFloat.eqb (_motor_sign (ctrl s2)) zero = false ->
  let delta := steps_delta (ctrl s2) total in
  (PyFloat.finite delta = true ->
   (Repeats g = 0 -> SynchOne axis (g :: rest) s = upload [] s2) /\
   (Repeats g < 0 ->
      SynchOne axis (g :: rest) s =
        match PyFloat.of_int (Repeats g) with
        | Ok _ => (Raise (ValueError (samples_message (Repeats g))), s2)
        | Raise e => (Raise e, s2)
        end)) /\
  (PyFloat.finite delta = false ->
   exists e, SynchOne axis (g :: rest) s = (Raise e, s2)).
Proof.
  intros Hi Ht Hsto Hn Hcable Hconf Hsign delta.
  rewrite (SynchOne_position axis g rest s s2 initial total
             Hi Ht Hcable Hconf Hsign), Hsto.
  fold delta.
  assert (Hmax : (MAX_ECAM_VALUES <? Repeats g) = false)
    by (apply Z.ltb_ge; unfold MAX_ECAM_VALUES; lia).
  rewrite Hmax; split.
  - intro Hfin; destruct (int_of_finite _ Hfin) as (k & ->); split.
    + intros ->; reflexivity.
    + intro Hneg; unfold linspace.
      apply Z.ltb_lt in Hneg; rewrite Hneg.
      destruct (PyFloat.of_int (Repeats g)); reflexivity.
  - intro Hinf; destruct (int_of_not_finite _ Hinf) as (e & ->).
    destruct (PyFloat.of_int (Repeats g)) as [nr_float | e'];
      eexists; reflexivity.
Qed.

(** X9.  With the start-trigger-only flag set, a position-domain
    request whose motor is bound and whose step is finite hands the
    one-entry table [start] to the upload whatever its count of points --
    zero, negative or above the ceiling of 20477 included, as long as the
    count converts to a float -- with
    [start = (initial - offset) * stepsPerUnit / sign] in binary64.  When
    the step is not finite the call raises and nothing is handed to the
    upload. *)
Theorem SynchOne_start_trigger_only (axis : Z) (g : SynchGroup)
    (rest : list SynchGroup) (s s2 : St W) (initial total : float) :
  Initial g = Some initial ->
  Total g = Some total ->
  _start_trigger_only (ctrl s) = true ->
  (_use_master_out (ctrl s) = true \/
   _last_motor_name (ctrl s) = Some (DefaultMotor (props (ctrl s)))) ->
  _configureMotor (_last_motor_name (ctrl s))
    (with_ctrl (set_time_mode false (ctrl s)) s) = (Ok tt, s2) ->
  PrimFloat.eqb (_motor_sign (ctrl s2)) zero = false ->
  let delta := (total * _motor_spu (ctrl s2) / _motor_sign (ctrl s2))%float in
  (forall nr_float,
     PyFloat.of_int (Repeats g) = Ok nr_float ->
     PyFloat.finite delta = true ->
     SynchOne axis (g :: rest) s =
       upload [((initial - _motor_offset (ctrl s2)) * _motor_spu (ctrl s2)
                / _motor_sign (ctrl s2))%float] s2) /\
  (PyFloat.finite delta = false ->
   exists e, SynchOne axis (g :: rest) s = (Raise e, s2) /\
             filter is_upload (log s2) = filter is_upload (log s)).
Proof.
  intros Hi Ht Hsto Hcable Hconf Hsign delta.
  rewrite (SynchOne_position axis g rest s s2 initial total
             Hi Ht Hcable Hconf Hsign), Hsto.
  change (steps_delta (ctrl s2) total) with delta.
  split.
  - intros nr_float -> Hfin; destruct (int_of_finite _ Hfin) as (k & ->).
    reflexivity.
  - intro Hinf; destruct (int_of_not_finite _ Hinf) as (e & ->).
    pose proof (quiet_configureMotor (_last_motor_name (ctrl s))
                  (with_ctrl (set_time_mode false (ctrl s)) s)) as Hq.
    rewrite Hconf in Hq.
    destruct (PyFloat.of_int (Repeats g)) as [nr_float | e'];
      eexists; (split; [reflexivity | exact Hq]).
Qed.


End Edges.

(** ** Construction *)

Section Construction.

Lemma length_split_on (sep : ascii) (s : string) :
  length (split_on sep s) = S (count_char sep s).
Proof.
  induction s as [| c r IH]; simpl; [reflexivity |].
  destruct (Ascii.eqb c sep); simpl; [rewrite IH; reflexivity |].
  destruct (split_on sep r) as [| t ts]; simpl in *; [discriminate | exact IH].
Qed.

Lemma lstrip_head (l : list ascii) c r :
  lstrip l = c :: r -> is_space c = false.
Proof.
  induction l as [| a l IH]; simpl; [discriminate |].
  destruct (is_space a) eqn:Ha; [exact IH |].
  intro E; injection E as <- _; exact Ha.
Qed.

Lemma lstrip_suffix (l : list ascii) : exists p, l = p ++ lstrip l.
Proof.
  induction l as [| a l [p IH]]; simpl; [exists []; reflexivity |].
  destruct (is_space a).
  - exists (a :: p); simpl; rewrite <- IH; reflexivity.
  - exists []; reflexivity.
Qed.

Lemma strip_trimmed (s : string) : trimmed (list_ascii_of_string (strip s)).
Proof.
  unfold strip; rewrite list_ascii_of_string_of_list_ascii.
  set (x := lstrip (list_ascii_of_string s)).
  set (y := lstrip (rev x)).
  split; intros c r E.
  - destruct (lstrip_suffix (rev x)) as [p Hp]; fold y in Hp.
    change (c :: r) with ([c] ++ r) in E.
    apply rev_eq_app in E; simpl in E.
    rewrite E in Hp.
    apply (f_equal (@rev ascii)) in Hp.
    rewrite rev_involutive, rev_app_distr, rev_app_distr in Hp.
    simpl in Hp.
    exact (lstrip_head (list_ascii_of_string s) c _ Hp).
  - apply (f_equal (@rev ascii)) in E.
    rewrite rev_involutive, rev_unit in E.
    exact (lstrip_head (rev x) c _ E).
Qed.

Context {W : Type} {dev : Device W}.

(** X14.  After [__init__], the list of auxiliary channels has one entry
    more than the [AxisInfos] property has commas -- it is never empty, an
    empty property giving the single empty name -- and no entry starts or
    ends with a blank: space, tab, line feed, vertical tab, form feed,
    carriage return, or any other character [str.isspace] accepts (the
    separators 28 to 31, next line, no-break space). *)
Theorem init_axis_info_list (p : Props) (w : W) (s : St W) :
  __init__ p w = Ok s ->
  length (_axis_info_list (ctrl s)) = S (count_char "," (AxisInfos p)) /\
  _axis_info_list (ctrl s) <> [] /\
  Forall (fun name => trimmed (list_ascii_of_string name))
         (_axis_info_list (ctrl s)).
Proof.
  unfold __init__; destruct (retries_nr _) as [n |]; [| discriminate].
  destruct (ipap_connect _ _ _) as [[[] | e] w']; [| discriminate].
  intro E; injection E as <-; simpl.
  assert (L : length (map strip (split_on "," (AxisInfos p))) =
              S (count_char "," (AxisInfos p)))
    by (rewrite length_map; apply length_split_on).
  split; [exact L |]; split.
  - intro E; rewrite E in L; discriminate.
  - apply Forall_map, Forall_forall; intros name _; apply strip_trimmed.
Qed.

(** The retry count of a timeout in the domain of the formula. *)
Lemma retries_nr_in_domain (timeout : float) (x : Q) (n : Z) :
  PyFloat.value (timeout + PyFloat.tenth)%float = Some x ->
  (1 # 10 <= x)%Q ->
  retries_nr timeout = Ok n -> 1 <= n <= 30.
Proof.
  intros Hv Hx.
  rewrite (retries_nr_quotient timeout x Hv (or_introl Hx)).
  pose proof (quotient_bounds x Hx) as Hq.
  intro E.
  assert (En : n = zero_to_one (Qfloor (3 / x))) by congruence.
  rewrite En; unfold zero_to_one.
  destruct (Z.eqb_spec (Qfloor (3 / x)) 0); lia.
Qed.

(** X16.  A controller initialised with a timeout in the domain of the
    formula (the sum [Timeout + 0.1] finite and at least 1/10) has a retry
    count between 1 and 30: every poll and every upload makes at least one
    attempt, and at most 30. *)
Theorem init_retry_budget (p : Props) (w : W) (s : St W) (x : Q) :
  __init__ p w = Ok s ->
  PyFloat.value (Timeout p + PyFloat.tenth)%float = Some x ->
  (1 # 10 <= x)%Q ->
  1 <= _retries_nr (ctrl s) <= 30.
Proof.
  intros Hinit Hv Hx.
  apply (retries_nr_in_domain (Timeout p) x _ Hv Hx).
  revert Hinit; unfold __init__.
  destruct (retries_nr _) as [n |]; [| discriminate].
  destruct (ipap_connect _ _ _) as [[[] | e] w']; [| discriminate].
  intro E; injection E as <-; reflexivity.
Qed.

End Construction.

(** ** From synchronization to start *)

Section Sequence.

Context {W : Type} {dev : Device W}.

(** A [SynchOne] that returns normally has bound a motor axis. *)
Lemma SynchOne_success_binds (axis : Z) (g : SynchGroup)
    (rest : list SynchGroup) (s s' : St W) :
  SynchOne axis (g :: rest) s = (Ok tt, s') ->
  _motor_axis (ctrl s') <> None.
Proof.
  assert (Hax : forall (name : option string) (s0 s2 : St W),
             _configureMotor name s0 = (Ok tt, s2) ->
             _motor_axis (ctrl s2) <> None).
  { intros name s0 s2; rewrite _configureMotor_run.
    destruct (taurus_axis _ _) as [[a | e] w1]; simpl; [| discriminate].
    destruct (taurus_read_attributes _ _) as [[[[? ?] ?] | e] w2]; simpl;
      [| discriminate].
    intro E; injection E as <-; discriminate. }
  unfold SynchOne; destruct (Initial g) as [initial |].
  - unfold bind at 1.
    change (modify (set_time_mode false) s)
      with (Ok tt, with_ctrl (set_time_mode false (ctrl s)) s).
    cbv beta iota; unfold bind at 1, get at 1; cbv beta iota.
    unfold bind at 1.
    set (s0 := with_ctrl (set_time_mode false (ctrl s)) s).
    pose proof (check_cable_state (_last_motor_name (ctrl s0)) s0) as Hc.
    destruct (check_cable (_last_motor_name (ctrl s0)) s0)
      as [[[] | e] sc]; simpl in Hc; subst sc; [| discriminate].
    unfold bind at 1.
    pose proof (Hax (_last_motor_name (ctrl s0)) s0) as Ha.
    destruct (_configureMotor (_last_motor_name (ctrl s0)) s0)
      as [[[] | e] s2]; [| discriminate].
    specialize (Ha s2 eq_refl).
    match goal with
    | |- ?m s2 = _ -> _ =>
        assert (K : keeps_ctrl m) by (frame; apply keeps_upload);
        specialize (K s2)
    end.
    intro E; rewrite E in K; simpl in K; rewrite K; exact Ha.
  - unfold bind at 1.
    destruct (1 <? Repeats g); [discriminate |].
    change (modify (set_time_mode true) s)
      with (Ok tt, with_ctrl (set_time_mode true (ctrl s)) s).
    cbv beta iota; unfold bind at 1, get at 1; cbv beta iota.
    unfold bind at 1.
    set (s0 := with_ctrl (set_time_mode true (ctrl s)) s).
    pose proof (check_cable_state (_last_motor_name (ctrl s0)) s0) as Hc.
    destruct (check_cable (_last_motor_name (ctrl s0)) s0)
      as [[[] | e] sc]; simpl in Hc; subst sc; [| discriminate].
    apply Hax.
Qed.

(** X15.  After a [SynchOne] that returned normally, a motor axis is
    bound and [StartOne] follows the domain of the request: after a
    position-domain request it does nothing, and after a time-domain
    request it emits the pulse -- on a device that accepts the register
    accesses it returns normally having driven the output HIGH, slept
    10 ms and driven it LOW: the world it leaves is the one in which the
    device has served the writes of HIGH and then the writes of LOW to
    every output register of the bound axis, and the calls issued are
    those of the two drives around the dwell. *)
Theorem SynchOne_then_StartOne (axis : Z) (g : SynchGroup)
    (rest : list SynchGroup) (s : St W) :
  fst (SynchOne axis (g :: rest) s) = Ok tt ->
  let s1 := snd (SynchOne axis (g :: rest) s) in
  _motor_axis (ctrl s1) <> None /\
  (Initial g <> None -> StartOne axis s1 = (Ok tt, s1)) /\
  (Initial g = None -> outputs_never_fail ->
   let c := ctrl s1 in
   let w1 := driven c HIGH (world s1) in
   let evs :=
     set_out_events c HIGH (world s1) ++ [Sleep (1 # 100)] ++
     set_out_events c LOW w1 in
   StartOne axis s1 =
     (Ok tt, {| ctrl := c; world := driven c LOW w1; log := log s1 ++ evs |}) /\
   filter is_output evs =
     drive c HIGH ++ [Sleep (1 # 100)] ++ drive c LOW).
Proof.
  intros Hok s1.
  assert (Hmode : _time_mode (ctrl s1) =
                  match Initial g with Some _ => false | None => true end).
  { unfold s1; rewrite SynchOne_mode_run.
    destruct (Initial g) as [initial |] eqn:Hi; [reflexivity |].
    destruct (1 <? Repeats g) eqn:Hn; [| reflexivity].
    exfalso; revert Hok; unfold SynchOne; rewrite Hi.
    unfold bind at 1; rewrite Hn; discriminate. }
  split; [| split].
  - apply (SynchOne_success_binds axis g rest s).
    unfold s1; destruct (SynchOne axis (g :: rest) s) as [r t];
      simpl in Hok; subst r; reflexivity.
  - intro Hi; unfold StartOne, bind, get; rewrite Hmode.
    destruct (Initial g); [reflexivity | congruence].
  - intros Hi Hdev c w1 evs; rewrite Hi in Hmode; split.
    + exact (StartOne_time_mode axis s1 Hmode Hdev).
    + apply filter_pulse.
Qed.

End Sequence.

(** ** The cable check *)

Section Cable.

Context {W : Type} {dev : Device W}.

(** In auxiliary-output mode with a bound name that is not the default
    motor, [SynchOne] gets no further than the cable check. *)
Lemma SynchOne_cable_mismatch (axis : Z) (g : SynchGroup)
    (rest : list SynchGroup) (s : St W) :
  _use_master_out (ctrl s) = false ->
  _last_motor_name (ctrl s) <> Some (DefaultMotor (props (ctrl s))) ->
  (Initial g = None -> Repeats g <= 1) ->
  SynchOne axis (g :: rest) s =
    (Raise (RuntimeError msg_cable),
     with_ctrl
       (set_time_mode
          (match Initial g with None => true | Some _ => false end)
          (ctrl s)) s).
Proof.
  intros Hm Hl Hn.
  unfold SynchOne; destruct (Initial g) as [p0 |].
  - unfold bind at 1.
    change (modify (set_time_mode false) s)
      with (Ok tt, with_ctrl (set_time_mode false (ctrl s)) s).
    cbv beta iota; unfold bind at 1, get at 1; cbv beta iota.
    unfold bind at 1; rewrite check_cable_mismatch;
      [reflexivity | exact Hm | exact Hl].
  - specialize (Hn eq_refl); apply Z.ltb_ge in Hn.
    unfold bind at 1; rewrite Hn.
    change (modify (set_time_mode true) s)
      with (Ok tt, with_ctrl (set_time_mode true (ctrl s)) s).
    cbv beta iota; unfold bind at 1, get at 1; cbv beta iota.
    unfold bind at 1; rewrite check_cable_mismatch;
      [reflexivity | exact Hm | exact Hl].
Qed.

(** X17.  [setMasterMotor] makes no cable check, [SynchOne] does: in
    auxiliary-output mode, once [setMasterMotor] has been called with a
    motor other than the default one -- whether that call succeeded or
    raised -- the next [SynchOne] raises the cable error without issuing
    any call to the device, for every position-domain request and every
    time-domain request of at most one point. *)
Theorem foreign_motor_blocks_synch (axis : Z) (m : string) (g : SynchGroup)
    (rest : list SynchGroup) (s : St W) :
  _use_master_out (ctrl s) = false ->
  m <> DefaultMotor (props (ctrl s)) ->
  (Initial g = None -> Repeats g <= 1) ->
  let s1 := snd (setMasterMotor axis m s) in
  fst (SynchOne axis (g :: rest) s1) = Raise (RuntimeError msg_cable) /\
  log (snd (SynchOne axis (g :: rest) s1)) = log s1 /\
  world (snd (SynchOne axis (g :: rest) s1)) = world s1.
Proof.
  intros Hm Hne Hn s1.
  destruct (_configureMotor_fields (Some m) s)
    as (Hp & _ & _ & Hu & _ & _ & Hl).
  fold (setMasterMotor axis m s) in Hp, Hu, Hl; fold s1 in Hp, Hu, Hl.
  rewrite (SynchOne_cable_mismatch axis g rest s1).
  - repeat split.
  - rewrite Hu; exact Hm.
  - rewrite Hl, Hp; simpl; congruence.
  - exact Hn.
Qed.

End Cable.

(** ** Further runs on the bench *)

Section FurtherRuns.

(** X3 on a panel whose register [InfoB] is broken, with the auxiliary
    outputs [InfoA], [InfoB] and [InfoC]: [InfoA] is written, the write to
    [InfoB] raises, and [InfoC] is never written. *)
Lemma set_out_writes_in_order_witness :
  let s := snd (setMasterMotor (dev := panel (Some "InfoB")) 1 "m1"
                  (booted props_aux3 5 [])) in
  _set_out (dev := panel (Some "InfoB")) LOW s =
    (Raise (HwError "register"),
     {| ctrl := ctrl s;
        world := [("InfoA", ("low", "normal"))];
        log := log s ++
               [IpapGetItem (Some 1);
                SetAttr (Some 1) "InfoA" ("low", "normal");
                SetAttr (Some 1) "InfoB" ("low", "normal")] |}).
Proof.
  intro s.
  exact (proj1 (proj2 (set_out_writes_in_order
                         (dev := panel (Some "InfoB")) LOW s))
           [] ["InfoA"] "InfoB" ["InfoC"] (HwError "register")
           [("InfoA", ("low", "normal"))]
           eq_refl eq_refl (conj eq_refl I) eq_refl).
Defined.

(** X1 on the panel, in position mode: the registers hold the arming. *)
Lemma PreStartOne_arms_witness :
  let s := snd (setMasterMotor (dev := panel None) 1 "m1"
                  (booted props_master 5 [])) in
  PreStartOne (dev := panel None) 1 s =
    (Ok true,
     {| ctrl := ctrl s;
        world := [("syncaux", ("ecam", "normal"))];
        log := log s ++
               [IpapGetItem (Some 1);
                SetAttr (Some 1) "syncaux" ("ecam", "normal");
                ReadSyncaux (Some 1); Print "ecam"] |}).
Proof.
  intro s.
  exact (proj1 (PreStartOne_arms (dev := panel None) 1 s panel_outputs)).
Defined.

(** X2 on the panel, in auxiliary-output mode: both channels are LOW. *)
Lemma AbortOne_drives_low_witness :
  let s := snd (setMasterMotor (dev := panel None) 1 "m1"
                  (booted props_aux 5 [])) in
  AbortOne (dev := panel None) 1 s =
    (Ok tt,
     {| ctrl := ctrl s;
        world := [("InfoB", ("low", "normal")); ("InfoA", ("low", "normal"))];
        log := log s ++
               [IpapGetItem (Some 1);
                SetAttr (Some 1) "InfoA" ("low", "normal");
                SetAttr (Some 1) "InfoB" ("low", "normal");
                ReadSyncaux (Some 1); Print "low"] |}).
Proof.
  intro s.
  exact (proj1 (AbortOne_drives_low (dev := panel None) 1 s panel_outputs)).
Defined.

Lemma configureMotor_binds_witness :
  let s' := snd (_configureMotor (dev := bench 1000 0 1) None
                   (booted props_master 5 tt)) in
  _last_motor_name (ctrl s') = Some "m1" /\
  _motor_axis (ctrl s') = Some 1 /\
  calibration (ctrl s') = (1000, 0, 1)%float.
Proof.
  destruct (configureMotor_binds (dev := bench 1000 0 1) None
              (booted props_master 5 tt) eq_refl)
    as (a & v & w1 & Ha & Hv & Hname & Haxis & Hcal & _).
  injection Ha as <- _; injection Hv as <-.
  split; [exact Hname |]; split; [exact Haxis | exact Hcal].
Defined.

Lemma configureMotor_failure_witness :
  let s' := snd (_configureMotor (dev := unreachable) (Some "m2")
                   (bound props_master 5 (1000, 0, 1)%float)) in
  _last_motor_name (ctrl s') = Some "m2" /\
  getMasterMotor 1 s' = (Ok (Some "m2"), s') /\
  calibration (ctrl s') = (1000, 0, 1)%float /\
  _motor_axis (ctrl s') = Some 1.
Proof.
  destruct (configureMotor_failure (dev := unreachable) 1 (Some "m2")
              (bound props_master 5 (1000, 0, 1)%float)
              (HwError "timeout") eq_refl)
    as (Hname & Hget & Hcal & _).
  split; [exact Hname |]; split; [exact Hget |]; split; [exact Hcal |].
  reflexivity.
Defined.

Lemma SynchOne_missing_total_witness :
  SynchOne (dev := bench 1000 0 1) 1 [g_position 5 None]
    (booted props_master 5 tt) =
  (Raise (KeyError "SynchParam.Total"),
   bound props_master 5 (1000, 0, 1)%float).
Proof.
  exact (proj1 (SynchOne_missing_total (dev := bench 1000 0 1) 1
                  (g_position 5 None) [] (booted props_master 5 tt)
                  (bound props_master 5 (1000, 0, 1)%float) 0
                  eq_refl eq_refl (or_introl eq_refl) eq_refl)).
Defined.

Lemma SynchOne_zero_sign_witness :
  SynchOne (dev := bench 1000 0 0) 1 [g_five] (booted props_master 5 tt) =
  (Raise (ZeroDivisionError "float division by zero"),
   bound props_master 5 (1000, 0, 0)%float).
Proof.
  exact (proj1 (SynchOne_zero_sign (dev := bench 1000 0 0) 1 g_five []
                  (booted props_master 5 tt)
                  (bound props_master 5 (1000, 0, 0)%float) 0 10
                  eq_refl eq_refl (or_introl eq_refl) eq_refl eq_refl)).
Defined.

Lemma SynchOne_degenerate_count_witness :
  SynchOne (dev := bench 1000 0 1) 1 [g_position 0 (Some 10%float)]
    (booted props_master 5 tt) =
    upload (dev := bench 1000 0 1) []
      (bound props_master 5 (1000, 0, 1)%float) /\
  SynchOne (dev := bench 1000 0 1) 1 [g_position (-3) (Some 10%float)]
    (booted props_master 5 tt) =
    (Raise (ValueError "Number of samples, -3, must be non-negative."),
     bound props_master 5 (1000, 0, 1)%float).
Proof.
  split.
  - exact (proj1 (proj1 (SynchOne_degenerate_count (dev := bench 1000 0 1) 1
                    (g_position 0 (Some 10%float)) []
                    (booted props_master 5 tt)
                    (bound props_master 5 (1000, 0, 1)%float) 0 10
                    eq_refl eq_refl eq_refl (Z.le_refl 0)
                    (or_introl eq_refl) eq_refl eq_refl) eq_refl) eq_refl).
  - exact (proj2 (proj1 (SynchOne_degenerate_count (dev := bench 1000 0 1) 1
                    (g_position (-3) (Some 10%float)) []
                    (booted props_master 5 tt)
                    (bound props_master 5 (1000, 0, 1)%float) 0 10
                    eq_refl eq_refl eq_refl ltac:(discriminate)
                    (or_introl eq_refl) eq_refl eq_refl) eq_refl) eq_refl).
Defined.

Lemma SynchOne_start_trigger_only_witness :
  let s := snd (setStartTriggerOnly 1 true (booted props_master 5 tt)) in
  let s2 := snd (_configureMotor (dev := bench 1000 0 1) None
                   (with_ctrl (set_time_mode false (ctrl s)) s)) in
  SynchOne (dev := bench 1000 0 1) 1 [g_position (-3) (Some 10%float)] s =
    upload (dev := bench 1000 0 1) [0%float] s2.
Proof.
  intros s s2.
  exact (proj1 (SynchOne_start_trigger_only (dev := bench 1000 0 1) 1
                  (g_position (-3) (Some 10%float)) [] s s2 0 10
                  eq_refl eq_refl eq_refl (or_introl eq_refl) eq_refl eq_refl)
           (PyFloat.of_Z (-3)) eq_refl eq_refl).
Defined.


(** The table of that request: three times the start. *)
Example zero_span_table :
  log (snd (SynchOne (dev := bench 1000 0 1) 1 [g_position 3 (Some 0%float)]
              (booted props_master 5 tt))) =
  log (bound props_master 5 (1000, 0, 1)%float) ++
  [SetEcamTable (Some 1) [0; 0; 0]%float].
Proof. vm_compute; reflexivity. Qed.

Lemma init_axis_info_list_witness :
  length (_axis_info_list (fresh props_aux 5)) = 2%nat /\
  _axis_info_list (fresh props_aux 5) <> [].
Proof.
  assert (Hinit : __init__ (dev := bench 1000 0 1) props_aux tt =
                  Ok (booted props_aux 5 tt))
    by (vm_compute; reflexivity).
  destruct (init_axis_info_list (dev := bench 1000 0 1) props_aux tt
              (booted props_aux 5 tt) Hinit) as (Hlen & Hne & _).
  split; [exact Hlen | exact Hne].
Defined.

Lemma init_retry_budget_witness :
  1 <= _retries_nr (fresh props_master 5) <= 30.
Proof.
  assert (Hinit : __init__ (dev := bench 1000 0 1) props_master tt =
                  Ok (booted props_master 5 tt))
    by (vm_compute; reflexivity).
  apply (init_retry_budget (dev := bench 1000 0 1) props_master tt
           (booted props_master 5 tt)
           (PyFloat.SF2Q false 5404319552844595 (-53)) Hinit).
  - reflexivity.
  - vm_compute; discriminate.
Defined.

(** X15 on the panel: a time-domain request of one point, then the
    pulse. *)
Lemma SynchOne_then_StartOne_witness :
  let s1 := snd (SynchOne (dev := panel None) 1 [g_time 1]
                   (booted props_master 5 [])) in
  StartOne (dev := panel None) 1 s1 =
    (Ok tt,
     {| ctrl := ctrl s1;
        world := [("syncaux", ("low", "normal"));
                  ("syncaux", ("high", "normal"))];
        log := log s1 ++
               [IpapGetItem (Some 1);
                SetAttr (Some 1) "syncaux" ("high", "normal");
                ReadSyncaux (Some 1); Print "high";
                Sleep (1 # 100);
                IpapGetItem (Some 1);
                SetAttr (Some 1) "syncaux" ("low", "normal");
                ReadSyncaux (Some 1); Print "low"] |}).
Proof.
  intro s1.
  destruct (SynchOne_then_StartOne (dev := panel None) 1 (g_time 1) []
              (booted props_master 5 []) eq_refl) as (_ & _ & Hpulse).
  exact (proj1 (Hpulse eq_refl panel_outputs)).
Defined.

End FurtherRuns.

Section CableRun.

Lemma foreign_motor_blocks_synch_witness :
  let s1 := snd (setMasterMotor (dev := bench 1000 0 1) 1 "m2"
                   (booted props_aux 5 tt)) in
  fst (setMasterMotor (dev := bench 1000 0 1) 1 "m2" (booted props_aux 5 tt)) =
    Ok tt /\
  fst (SynchOne (dev := bench 1000 0 1) 1 [g_five] s1) =
    Raise (RuntimeError msg_cable) /\
  log (snd (SynchOne (dev := bench 1000 0 1) 1 [g_five] s1)) = log s1.
Proof.
  intro s1.
  assert (Hne : "m2" <> DefaultMotor (props (ctrl (booted props_aux 5 tt))))
    by discriminate.
  destruct (foreign_motor_blocks_synch (dev := bench 1000 0 1) 1 "m2" g_five []
              (booted props_aux 5 tt) eq_refl Hne
              (fun H => ltac:(discriminate H)))
    as (Hraise & Hlog & _).
  split; [reflexivity |]; split; [exact Hraise | exact Hlog].
Defined.

End CableRun.
